(** * lnd/input: the mock Input, WitnessType and Signer (input/mocks.go)

    A shallow embedding of the test doubles of package [input]: [MockInput],
    [MockWitnessType] and [MockInputSigner].  Each method hands its arguments
    to the embedded call dispatcher ([mock.Mock.Called]), then decodes the
    configured return values with nil checks and type assertions.

    Go values travel through the dispatcher as [interface{}]; they are
    modelled by [Value], one constructor per dynamic type the package uses.
    A panic (no matching expectation, a return list that is too short, a
    failing type assertion) is an explicit outcome. *)

From stdpp Require Import gmap strings list.
From Stdlib Require Import ZArith Strings.Byte.

Local Open Scope Z_scope.

(** ** Data of the packages the mocks talk about *)

(** Addresses of heap objects reached through Go pointers. *)
Abbreviation loc := positive.

(** Package [wire] of btcd, as far as the mocks handle its types. *)
Module wire.

(** [wire.OutPoint]: transaction hash and output index. *)
Record OutPoint := mkOutPoint { Hash : list byte; Index : Z }.

(** [wire.TxOut]. *)
Record TxOut := mkTxOut { Value : Z; PkScript : list byte }.

(** [wire.TxIn]. *)
Record TxIn := mkTxIn {
  PreviousOutPoint : OutPoint;
  SignatureScript : list byte;
  Witness : list (list byte);
  Sequence : Z
}.

(** [wire.MsgTx]: the transaction a spend is built for. *)
Record MsgTx := mkMsgTx {
  Version : Z;
  TxIn_ : list TxIn;
  TxOut_ : list TxOut;
  LockTime : Z
}.

(** [wire.TxWitness]: a witness stack. *)
Definition TxWitness := list (list byte).

(** [wire.VarIntSerializeSize]: the bytes taken by a variable-length
    integer. *)
Definition VarIntSerializeSize (val : Z) : Z :=
  if val <? 253 then 1
  else if val <=? 65535 then 3
  else if val <=? 4294967295 then 5
  else 9.

(** [TxWitness.SerializeSize]: the bytes a witness stack takes in a
    serialised transaction, the item count followed by each item with its
    length. *)
Definition SerializeSize (t : TxWitness) : Z :=
  fold_left
    (fun n witItem =>
       n + VarIntSerializeSize (Z.of_nat (length witItem))
         + Z.of_nat (length witItem))
    t (VarIntSerializeSize (Z.of_nat (length t))).

End wire.

(** [input.Script]: a witness stack and, for nested p2sh, a sigScript. *)
Record Script := mkScript { Witness : wire.TxWitness; SigScript : list byte }.

(** [input.TxInfo]: fee and weight of an unconfirmed parent. *)
Record TxInfo := mkTxInfo { Fee : Z; Weight : Z }.

(** [input.SignDescriptor], reduced to the fields a witness depends on. *)
Record SignDescriptor := mkSignDescriptor {
  WitnessScript : list byte;
  Output : option wire.TxOut;
  HashType : Z;
  InputIndex : Z
}.

(** Go's [error] interface: a non-nil error carries its message; the nil
    error is [None] wherever an [error] result is returned. *)
Definition error := string.

(** Objects that are only ever passed along: a [Signer], a
    [txscript.PrevOutputFetcher], the target of a [*txscript.TxSigHashes],
    and an implementation of [WitnessType]; each is known by its identity. *)
Definition Signer := loc.
Definition PrevOutputFetcher := loc.
Definition WitnessTypeImpl := loc.

(** Signatures by their serialisation: [input.Signature],
    [*musig2.PartialSignature], [*schnorr.Signature]. *)
Definition Signature := list byte.
Definition PartialSignature := list byte.
Definition SchnorrSignature := list byte.

(** [MuSig2SessionID] is [[32]byte]; a public nonce is [[66]byte]. *)
Definition MuSig2SessionID := list byte.
Definition PubNonce := list byte.

(** The store of transactions that [*wire.MsgTx] pointers refer to. *)
Abbreviation Heap := (gmap loc wire.MsgTx).

(** [input.WitnessGenerator]: a function of a transaction pointer, a
    sighash-cache pointer and an input index that returns a [Script] pointer
    and an [error].  The generator reads the transaction through its
    pointer. *)
Definition WitnessGenerator : Type :=
  Heap -> option loc -> option loc -> Z -> option Script * option error.

(** ** Values behind [interface{}] *)

(** A value stored in an [interface{}]: [VNil] is the nil interface, every
    other constructor is a dynamic type together with a value of it.  A
    pointer type holds [None] for the typed nil pointer, which is not the
    nil interface. *)
Inductive Value : Type :=
| VNil
| VBool (b : bool)
| VInt (n : Z)
| VUint32 (n : Z)
| VString (s : string)
| VWeightUnit (w : Z)
| VError (e : error)
| VOutPoint (op : wire.OutPoint)
| VTxOutPtr (p : option wire.TxOut)
| VMsgTxPtr (p : option loc)
| VSigHashesPtr (p : option loc)
| VSignDescPtr (p : option SignDescriptor)
| VScriptPtr (p : option Script)
| VTxInfoPtr (p : option TxInfo)
| VSigner (s : Signer)
| VPrevOutputFetcher (f : PrevOutputFetcher)
| VWitnessType (w : WitnessTypeImpl)
| VWitnessGenerator (g : option WitnessGenerator)
| VSignature (s : Signature)
| VPartialSigPtr (p : option PartialSignature)
| VSchnorrSigPtr (p : option SchnorrSignature)
| VSessionID (id : MuSig2SessionID)
| VHash32 (h : list byte)
| VPubNonces (ns : list PubNonce)
| VPartialSigs (ps : list (option PartialSignature)).

(** [v == nil] on an [interface{}]. *)
Definition isNil (v : Value) : bool :=
  match v with VNil => true | _ => false end.

(** Conversion of an interface-typed argument to [interface{}]: a nil
    interface stays the nil interface. *)
Definition ofSigner (s : option Signer) : Value :=
  match s with Some x => VSigner x | None => VNil end.

Definition ofPrevOutputFetcher (f : option PrevOutputFetcher) : Value :=
  match f with Some x => VPrevOutputFetcher x | None => VNil end.

(** ** The call dispatcher (testify's [mock.Mock]) *)

Module mock.

(** [mock.Arguments]: the list of values of a call or of a return. *)
Definition Arguments := list Value.

(** An expected argument accepts or rejects an actual argument.  This covers
    [mock.Anything], [mock.MatchedBy] and comparison with a fixed object;
    comparison of pointers looks through them, hence the heap. *)
Definition Matcher : Type := Heap -> Value -> bool.

Definition Anything : Matcher := fun _ _ => true.

(** [mock.Call]: one expectation, as set up by [On(...).Return(...)] and
    limited by [Times] or [Once].  [Repeatability] is [0] for an unlimited
    expectation, the remaining number of calls for a limited one, and [-1]
    once a limited one is used up.  Test code attached to an expectation
    with [Run] is not part of this record: the methods are modelled for
    expectations without it, and module [WithRun] adds it for the method that
    is handed a transaction to craft a script for.  The waiting and panicking
    variants lie outside the model. *)
Record Call := mkCall {
  Method : string;
  Arguments_ : list Matcher;
  ReturnArguments : Arguments;
  Repeatability : Z;
  totalCalls : Z
}.

(** [mock.Mock]: the expectations and the log of calls made so far. *)
Record Mock := mkMock {
  ExpectedCalls : list Call;
  Calls : list (string * Arguments)
}.

(** [On(method, args...)], [Return(rets...)], [Times(i)] and [Once()]. *)
Definition On (method : string) (arguments : list Matcher) : Call :=
  mkCall method arguments [] 0 0.

Definition Return (c : Call) (returnArguments : Arguments) : Call :=
  mkCall (Method c) (Arguments_ c) returnArguments (Repeatability c) (totalCalls c).

Definition Times (c : Call) (i : Z) : Call :=
  mkCall (Method c) (Arguments_ c) (ReturnArguments c) i (totalCalls c).

Definition Once (c : Call) : Call := Times c 1.

(** The placeholder [Arguments.Diff] compares with when one of the two lists
    is shorter than the other. *)
Definition Missing : Value := VString "(Missing)".

Definition isMissingOrAnything (v : Value) : bool :=
  match v with
  | VString s => bool_decide (s = "(Missing)" ∨ s = "mock.Anything")
  | _ => false
  end.

(** [Arguments.Diff]: the number of positions where expectation and call
    differ, over the longer of the two lists.  [diffUnexpected] counts the
    positions past the end of the expectation. *)
Fixpoint diffUnexpected (objects : Arguments) : nat :=
  match objects with
  | [] => O
  | a :: os => ((if isMissingOrAnything a then 0 else 1) + diffUnexpected os)%nat
  end.

Fixpoint Diff (h : Heap) (expected : list Matcher) (objects : Arguments) : nat :=
  match expected with
  | [] => diffUnexpected objects
  | e :: es =>
      match objects with
      | [] => ((if e h Missing then 0 else 1) + Diff h es [])%nat
      | a :: os => ((if e h a then 0 else 1) + Diff h es os)%nat
      end
  end.

Definition matches (h : Heap) (method : string) (args : Arguments) (c : Call) : bool :=
  bool_decide (Method c = method) && Nat.eqb (Diff h (Arguments_ c) args) 0.

(** [Mock.findExpectedCall]: the first matching expectation that can still be
    called, with its index; failing that, [None] for the index and the last
    matching expectation that is used up, if there is one. *)
Fixpoint findExpectedCallFrom (h : Heap) (method : string) (args : Arguments)
    (i : nat) (calls : list Call) (expectedCall : option Call)
    : option nat * option Call :=
  match calls with
  | [] => (None, expectedCall)
  | call :: rest =>
      if matches h method args call then
        if Z.ltb (-1) (Repeatability call) then (Some i, Some call)
        else findExpectedCallFrom h method args (S i) rest (Some call)
      else findExpectedCallFrom h method args (S i) rest expectedCall
  end.

Definition findExpectedCall (h : Heap) (m : Mock) (method : string) (args : Arguments)
    : option nat * option Call :=
  findExpectedCallFrom h method args O (ExpectedCalls m) None.

(** The bookkeeping of [MethodCalled] on the expectation it found. *)
Definition consume (c : Call) : Call :=
  mkCall (Method c) (Arguments_ c) (ReturnArguments c)
    (if Z.eqb (Repeatability c) 1 then -1
     else if Z.ltb 1 (Repeatability c) then Repeatability c - 1
     else Repeatability c)
    (totalCalls c + 1).

End mock.

(** ** Outcomes and the method monad *)

(** Why a method did not return. *)
Inductive Panic :=
| UnexpectedCall (method : string)
| CalledTooOften (method : string)
| NoSuchArgument (index : nat)
| FailedAssertion (wanted : string).

(** What a method works on: the transactions behind pointers and the
    receiver's embedded [mock.Mock]. *)
Record World := mkWorld { txs : Heap; self : mock.Mock }.

Inductive Outcome (A : Type) :=
| Returns (a : A) (w : World)
| Panics (p : Panic) (w : World).
Arguments Returns {A} a w.
Arguments Panics {A} p w.

Definition after {A} (o : Outcome A) : World :=
  match o with Returns _ w => w | Panics _ w => w end.

Definition result {A} (o : Outcome A) : option A :=
  match o with Returns a _ => Some a | Panics _ _ => None end.

Definition M (A : Type) : Type := World -> Outcome A.

Global Instance M_ret : MRet M := fun A a w => Returns a w.
Global Instance M_bind : MBind M := fun A B f c w =>
  match c w with
  | Returns a w' => f a w'
  | Panics p w' => Panics p w'
  end.

Definition panic {A} (p : Panic) : M A := fun w => Panics p w.

(** ** Calling the dispatcher and reading what it returns *)

(** [Mock.Called], through [Mock.MethodCalled]: find the expectation for the
    call, update its counters, log the call and hand back the configured
    return values.  Go derives [methodName] from the calling method; here the
    caller passes it.  Without a usable expectation the call does not
    return. *)
Definition Called (methodName : string) (arguments : mock.Arguments)
    : M mock.Arguments := fun w =>
  let m := self w in
  match mock.findExpectedCall (txs w) m methodName arguments with
  | (Some found, Some call) =>
      Returns (mock.ReturnArguments call)
        (mkWorld (txs w)
           (mock.mkMock (<[found := mock.consume call]> (mock.ExpectedCalls m))
                        (mock.Calls m ++ [(methodName, arguments)])))
  | (None, Some _) => Panics (CalledTooOften methodName) w
  | (_, None) => Panics (UnexpectedCall methodName) w
  end.

(** The accessors of [mock.Arguments]. *)
Module args.

Definition Get (a : mock.Arguments) (index : nat) : M Value :=
  match a !! index with
  | Some v => mret v
  | None => panic (NoSuchArgument index)
  end.

Definition Bool (a : mock.Arguments) (index : nat) : M bool :=
  v ← Get a index;
  match v with
  | VBool b => mret b
  | _ => panic (FailedAssertion "bool")
  end.

Definition String (a : mock.Arguments) (index : nat) : M string :=
  v ← Get a index;
  match v with
  | VString s => mret s
  | _ => panic (FailedAssertion "string")
  end.

Definition Error (a : mock.Arguments) (index : nat) : M (option error) :=
  v ← Get a index;
  match v with
  | VNil => mret None
  | VError e => mret (Some e)
  | _ => panic (FailedAssertion "error")
  end.

End args.

(** Type assertions [v.(T)], one per asserted type.  An assertion to a
    pointer type yields the pointer, nil or not; an assertion to an interface
    type yields a non-nil interface.  In a return statement the compiled
    code checks an assertion to a pointer type after the calls written to
    its right have run, and every other assertion where it stands; the
    methods below follow that order. *)
Module assertTo.

Definition OutPoint (v : Value) : M wire.OutPoint :=
  match v with VOutPoint op => mret op | _ => panic (FailedAssertion "wire.OutPoint") end.

Definition TxOutPtr (v : Value) : M (option wire.TxOut) :=
  match v with VTxOutPtr p => mret p | _ => panic (FailedAssertion "*wire.TxOut") end.

Definition Uint32 (v : Value) : M Z :=
  match v with VUint32 n => mret n | _ => panic (FailedAssertion "uint32") end.

Definition WitnessType (v : Value) : M WitnessTypeImpl :=
  match v with VWitnessType w => mret w | _ => panic (FailedAssertion "WitnessType") end.

Definition SignDescPtr (v : Value) : M (option SignDescriptor) :=
  match v with VSignDescPtr p => mret p | _ => panic (FailedAssertion "*SignDescriptor") end.

Definition ScriptPtr (v : Value) : M (option Script) :=
  match v with VScriptPtr p => mret p | _ => panic (FailedAssertion "*Script") end.

Definition TxInfoPtr (v : Value) : M (option TxInfo) :=
  match v with VTxInfoPtr p => mret p | _ => panic (FailedAssertion "*TxInfo") end.

Definition Generator (v : Value) : M (option WitnessGenerator) :=
  match v with
  | VWitnessGenerator g => mret g
  | _ => panic (FailedAssertion "WitnessGenerator")
  end.

Definition WeightUnit (v : Value) : M Z :=
  match v with VWeightUnit n => mret n | _ => panic (FailedAssertion "lntypes.WeightUnit") end.

Definition Sig (v : Value) : M Signature :=
  match v with VSignature s => mret s | _ => panic (FailedAssertion "Signature") end.

Definition PartialSigPtr (v : Value) : M (option PartialSignature) :=
  match v with
  | VPartialSigPtr p => mret p
  | _ => panic (FailedAssertion "*musig2.PartialSignature")
  end.

Definition SchnorrSigPtr (v : Value) : M (option SchnorrSignature) :=
  match v with
  | VSchnorrSigPtr p => mret p
  | _ => panic (FailedAssertion "*schnorr.Signature")
  end.

End assertTo.

(** ** MockInput *)

Module MockInput.

Definition OutPoint : M wire.OutPoint :=
  a ← Called "OutPoint" [];
  op ← args.Get a 0;
  assertTo.OutPoint op.

Definition RequiredTxOut : M (option wire.TxOut) :=
  a ← Called "RequiredTxOut" [];
  txOut ← args.Get a 0;
  if isNil txOut then mret None
  else assertTo.TxOutPtr txOut.

Definition RequiredLockTime : M (Z * bool) :=
  a ← Called "RequiredLockTime" [];
  v ← args.Get a 0;
  n ← assertTo.Uint32 v;
  b ← args.Bool a 1;
  mret (n, b).

Definition WitnessType : M (option WitnessTypeImpl) :=
  a ← Called "WitnessType" [];
  wt ← args.Get a 0;
  if isNil wt then mret None
  else w ← assertTo.WitnessType wt; mret (Some w).

Definition SignDesc : M (option SignDescriptor) :=
  a ← Called "SignDesc" [];
  sd ← args.Get a 0;
  if isNil sd then mret None
  else assertTo.SignDescPtr sd.

Definition CraftInputScript (signer : option Signer) (txn : option loc)
    (hashCache : option loc) (prevOutputFetcher : option PrevOutputFetcher)
    (txinIdx : Z) : M (option Script * option error) :=
  a ← Called "CraftInputScript"
        [ofSigner signer; VMsgTxPtr txn; VSigHashesPtr hashCache;
         ofPrevOutputFetcher prevOutputFetcher; VInt txinIdx];
  s ← args.Get a 0;
  if isNil s then
    e ← args.Error a 1; mret (None, e)
  else
    e ← args.Error a 1;
    sp ← assertTo.ScriptPtr s;
    mret (sp, e).

Definition BlocksToMaturity : M Z :=
  a ← Called "BlocksToMaturity" [];
  v ← args.Get a 0;
  assertTo.Uint32 v.

Definition HeightHint : M Z :=
  a ← Called "HeightHint" [];
  v ← args.Get a 0;
  assertTo.Uint32 v.

Definition UnconfParent : M (option TxInfo) :=
  a ← Called "UnconfParent" [];
  info ← args.Get a 0;
  if isNil info then mret None
  else assertTo.TxInfoPtr info.

End MockInput.

(** ** MockWitnessType *)

Module MockWitnessType.

Definition String : M string :=
  a ← Called "String" [];
  args.String a 0.

(** Both parameters are ignored: the dispatcher is called without
    arguments. *)
Definition WitnessGenerator (signer : option Signer)
    (descriptor : option SignDescriptor) : M (option WitnessGenerator) :=
  a ← Called "WitnessGenerator" [];
  v ← args.Get a 0;
  assertTo.Generator v.

Definition SizeUpperBound : M (Z * bool * option error) :=
  a ← Called "SizeUpperBound" [];
  v ← args.Get a 0;
  n ← assertTo.WeightUnit v;
  b ← args.Bool a 1;
  e ← args.Error a 2;
  mret (n, b, e).

(** The estimator argument is not passed on to the dispatcher either. *)
Definition AddWeightEstimation (e : option loc) : M (option error) :=
  a ← Called "AddWeightEstimation" [];
  args.Error a 0.

End MockWitnessType.

(** ** MockInputSigner *)

Module MockInputSigner.

Definition SignOutputRaw (tx : option loc) (signDesc : option SignDescriptor)
    : M (option Signature * option error) :=
  a ← Called "SignOutputRaw" [VMsgTxPtr tx; VSignDescPtr signDesc];
  v ← args.Get a 0;
  if isNil v then
    e ← args.Error a 1; mret (None, e)
  else
    v' ← args.Get a 0;
    sig ← assertTo.Sig v';
    e ← args.Error a 1;
    mret (Some sig, e).

Definition ComputeInputScript (tx : option loc) (signDesc : option SignDescriptor)
    : M (option Script * option error) :=
  a ← Called "ComputeInputScript" [VMsgTxPtr tx; VSignDescPtr signDesc];
  v ← args.Get a 0;
  if isNil v then
    e ← args.Error a 1; mret (None, e)
  else
    v' ← args.Get a 0;
    e ← args.Error a 1;
    sp ← assertTo.ScriptPtr v';
    mret (sp, e).

Definition MuSig2RegisterNonces (versio : MuSig2SessionID)
    (pubNonces : list PubNonce) : M (bool * option error) :=
  a ← Called "MuSig2RegisterNonces" [VSessionID versio; VPubNonces pubNonces];
  v ← args.Get a 0;
  if isNil v then
    e ← args.Error a 1; mret (false, e)
  else
    b ← args.Bool a 0;
    e ← args.Error a 1;
    mret (b, e).

Definition MuSig2Sign (sessionID : MuSig2SessionID) (msg : list byte)
    (withSortedKeys : bool) : M (option PartialSignature * option error) :=
  a ← Called "MuSig2Sign" [VSessionID sessionID; VHash32 msg; VBool withSortedKeys];
  v ← args.Get a 0;
  if isNil v then
    e ← args.Error a 1; mret (None, e)
  else
    v' ← args.Get a 0;
    e ← args.Error a 1;
    ps ← assertTo.PartialSigPtr v';
    mret (ps, e).

Definition MuSig2CombineSig (sessionID : MuSig2SessionID)
    (partialSig : list (option PartialSignature))
    : M (option SchnorrSignature * bool * option error) :=
  a ← Called "MuSig2CombineSig" [VSessionID sessionID; VPartialSigs partialSig];
  v ← args.Get a 0;
  if isNil v then
    e ← args.Error a 2; mret (None, false, e)
  else
    v' ← args.Get a 0;
    b ← args.Bool a 1;
    e ← args.Error a 2;
    sig ← assertTo.SchnorrSigPtr v';
    mret (sig, b, e).

Definition MuSig2Cleanup (sessionID : MuSig2SessionID) : M (option error) :=
  a ← Called "MuSig2Cleanup" [VSessionID sessionID];
  args.Error a 0.

End MockInputSigner.

(** ** Reading a configuration *)

(** The expectation, with its index, that a call made in world [w] is
    answered by. *)
Definition matched (w : World) (method : string) (a : mock.Arguments)
    : option (nat * mock.Call) :=
  match mock.findExpectedCall (txs w) (self w) method a with
  | (Some i, Some c) => Some (i, c)
  | _ => None
  end.

(** The return values configured for a call made in world [w]. *)
Definition reply (w : World) (method : string) (a : mock.Arguments)
    : option mock.Arguments :=
  match matched w method a with
  | Some (_, c) => Some (mock.ReturnArguments c)
  | None => None
  end.

(** The world an answered call leaves behind. *)
Definition answered (w : World) (method : string) (a : mock.Arguments)
    (i : nat) (c : mock.Call) : World :=
  mkWorld (txs w)
    (mock.mkMock (<[i := mock.consume c]> (mock.ExpectedCalls (self w)))
                 (mock.Calls (self w) ++ [(method, a)])).

(** Reading a result that is the nil interface or an error. *)
Definition asError (v : Value) : option (option error) :=
  match v with
  | VNil => Some None
  | VError e => Some (Some e)
  | _ => None
  end.

(** Reading a result that is the nil interface or a [Script] pointer. *)
Definition asScriptPtr (v : Value) : option (option Script) :=
  match v with
  | VNil => Some None
  | VScriptPtr p => Some p
  | _ => None
  end.

(** Reading a result that is the nil interface or a [Signature]. *)
Definition asSignature (v : Value) : option (option Signature) :=
  match v with
  | VNil => Some None
  | VSignature s => Some (Some s)
  | _ => None
  end.

(** ** Sample configurations *)

(** A fresh mock with the given expectations, next to the transactions
    [h]. *)
Definition configuredWith (h : Heap) (expected : list mock.Call) : World :=
  mkWorld h (mock.mkMock expected []).

Module Samples.

Definition sessionID : MuSig2SessionID := repeat x07 32.
Definition message : list byte := repeat x2a 32.
Definition partialSigA : PartialSignature := repeat x0a 32.
Definition partialSigB : PartialSignature := repeat x0b 32.
Definition signature : Signature := repeat x30 72.
Definition pubNonce : PubNonce := repeat x02 66.
Definition signer : option Signer := Some 7%positive.

(** One transaction, at address 1: one input, one output. *)
Definition sweepTx : wire.MsgTx :=
  wire.mkMsgTx 2
    [wire.mkTxIn (wire.mkOutPoint (repeat x11 32) 0) [] [] 4294967295]
    [wire.mkTxOut 900 [x00; x14]] 0.

Definition transactions : Heap := {[ 1%positive := sweepTx ]}.
Definition txn : option loc := Some 1%positive.

Definition descriptor : option SignDescriptor :=
  Some (mkSignDescriptor [x51] (Some (wire.mkTxOut 1000 [x00; x14])) 1 0).

(** An [Input] whose pointer and interface results are all configured as
    nil. *)
Definition nilInput : World :=
  configuredWith transactions
    [ mock.Return (mock.On "RequiredTxOut" []) [VNil];
      mock.Return (mock.On "WitnessType" []) [VNil];
      mock.Return (mock.On "SignDesc" []) [VNil];
      mock.Return (mock.On "UnconfParent" []) [VNil];
      mock.Return
        (mock.On "CraftInputScript"
           [mock.Anything; mock.Anything; mock.Anything; mock.Anything;
            mock.Anything])
        [VNil; VNil] ].

(** Signers configured with [Return(nil, nil)] and with both a signature
    and an error. *)
Definition signerWithNothing : World :=
  configuredWith transactions
    [ mock.Return (mock.On "SignOutputRaw" [mock.Anything; mock.Anything])
        [VNil; VNil] ].

Definition signerWithBoth : World :=
  configuredWith transactions
    [ mock.Return (mock.On "SignOutputRaw" [mock.Anything; mock.Anything])
        [VSignature signature; VError "key unavailable"] ].

(** A signer whose MuSig2 methods answer every call the same way. *)
Definition registerExpectation : mock.Call :=
  mock.Return (mock.On "MuSig2RegisterNonces" [mock.Anything; mock.Anything])
    [VBool true; VNil].

Definition signExpectation : mock.Call :=
  mock.Return
    (mock.On "MuSig2Sign" [mock.Anything; mock.Anything; mock.Anything])
    [VPartialSigPtr (Some partialSigA); VNil].

Definition musigSigner : World :=
  configuredWith transactions
    [ mock.Return (mock.On "MuSig2Cleanup" [mock.Anything]) [VNil];
      registerExpectation;
      signExpectation;
      mock.Return (mock.On "MuSig2CombineSig" [mock.Anything; mock.Anything])
        [VSchnorrSigPtr (Some (repeat x5c 64)); VBool true; VNil] ].

(** A signer scripted to answer the first call differently from the
    later ones. *)
Definition scriptedSigner : World :=
  configuredWith transactions
    [ mock.Once
        (mock.Return
           (mock.On "MuSig2Sign" [mock.Anything; mock.Anything; mock.Anything])
           [VPartialSigPtr (Some partialSigA); VNil]);
      mock.Return
        (mock.On "MuSig2Sign" [mock.Anything; mock.Anything; mock.Anything])
        [VPartialSigPtr (Some partialSigB); VNil];
      mock.Once
        (mock.Return
           (mock.On "MuSig2RegisterNonces" [mock.Anything; mock.Anything])
           [VBool true; VNil]);
      mock.Return
        (mock.On "MuSig2RegisterNonces" [mock.Anything; mock.Anything])
        [VBool false; VNil] ].

(** A signer that accepts two registrations and no more. *)
Definition registerTwice : mock.Call :=
  mock.Times
    (mock.Return (mock.On "MuSig2RegisterNonces" [mock.Anything; mock.Anything])
       [VBool true; VNil])
    2.

Definition limitedSigner : World := configuredWith transactions [registerTwice].

(** A signer whose combined signature is a nil pointer of the right type. *)
Definition typedNilCombiner : World :=
  configuredWith transactions
    [ mock.Return (mock.On "MuSig2CombineSig" [mock.Anything; mock.Anything])
        [VSchnorrSigPtr None; VBool true; VNil] ].

(** A generator that produces a one-item witness holding a 72-byte
    signature. *)
Definition signatureWitness : WitnessGenerator :=
  fun _ _ _ _ => (Some (mkScript [signature] []), None).

(** Witness types that declare a size of 0 and of 74 for it. *)
Definition witnessTypeDeclaring (size : Z) : World :=
  configuredWith transactions
    [ mock.Return (mock.On "SizeUpperBound" [])
        [VWeightUnit size; VBool false; VNil];
      mock.Return (mock.On "WitnessGenerator" [])
        [VWitnessGenerator (Some signatureWitness)] ].

End Samples.

(** ** Frame conditions *)

(** The decoding steps after the dispatcher call neither read nor write the
    world: their result is fixed and the world is handed on as it came. *)
Definition stateless {A} (c : M A) : Prop :=
  exists o : option A, forall w, result (c w) = o /\ after (c w) = w.

(** A computation that may change the mock but not the transactions. *)
Definition keeps_txs {A} (c : M A) : Prop :=
  forall w, txs (after (c w)) = txs w.

(** ** Stating the size bound *)

(** The size [n] is at least the serialised size of every witness the
    generator [g] produces. *)
Definition bounds (n : Z) (g : option WitnessGenerator) : Prop :=
  forall gen, g = Some gen ->
  forall h tx hc inputIndex s err,
    gen h tx hc inputIndex = (Some s, err) -> wire.SerializeSize (Witness s) <= n.

(** The expectation [c], about to answer a call, is still there to answer
    the same call after [n] calls: it is unlimited, or allows more than [n]
    calls. *)
Definition lasts (c : mock.Call) (n : nat) : Prop :=
  mock.Repeatability c = 0 \/ Z.of_nat n < mock.Repeatability c.

(** The world after [n] further identical calls of a method. *)
Definition repeated {A} (c : M A) (n : nat) (w : World) : World :=
  Nat.iter n (fun w' => after (c w')) w.

(** ** Further sample configurations *)

Module Fixtures.

Definition outPoint : wire.OutPoint := wire.mkOutPoint (repeat x11 32) 0.

Definition script : Script := mkScript [Samples.signature; [x51]] [].

(** An input with every plain getter configured; the height hint may be
    asked for five times. *)
Definition heightExpectation : mock.Call :=
  mock.Times (mock.Return (mock.On "HeightHint" []) [VUint32 800000]) 5.

Definition maturityExpectation : mock.Call :=
  mock.Return (mock.On "BlocksToMaturity" []) [VUint32 144].

Definition outPointExpectation : mock.Call :=
  mock.Return (mock.On "OutPoint" []) [VOutPoint outPoint].

Definition lockTimeExpectation : mock.Call :=
  mock.Return (mock.On "RequiredLockTime" []) [VUint32 500000; VBool true].

Definition input : World :=
  configuredWith Samples.transactions
    [ outPointExpectation; lockTimeExpectation; maturityExpectation;
      heightExpectation ].

(** An input whose maturity is configured with an untyped constant, which Go
    stores as an [int]. *)
Definition intInput : World :=
  configuredWith Samples.transactions
    [ mock.Return (mock.On "BlocksToMaturity" []) [VInt 144] ].

(** A signer whose first script is single-use and whose later answer is an
    error. *)
Definition scriptOnce : mock.Call :=
  mock.Once
    (mock.Return (mock.On "ComputeInputScript" [mock.Anything; mock.Anything])
       [VScriptPtr (Some script); VNil]).

Definition scriptLater : mock.Call :=
  mock.Return (mock.On "ComputeInputScript" [mock.Anything; mock.Anything])
    [VNil; VError "no more scripts"].

Definition scriptedSigner : World :=
  configuredWith Samples.transactions [scriptOnce; scriptLater].

(** A signer that computes the same script up to four times, and signs. *)
Definition scriptFourTimes : mock.Call :=
  mock.Times
    (mock.Return (mock.On "ComputeInputScript" [mock.Anything; mock.Anything])
       [VScriptPtr (Some script); VNil])
    4.

Definition signer : World :=
  configuredWith Samples.transactions
    [ scriptFourTimes;
      mock.Return (mock.On "SignOutputRaw" [mock.Anything; mock.Anything])
        [VSignature Samples.signature; VNil] ].

(** A signer whose script is configured with a value of the wrong type. *)
Definition illTypedSigner : World :=
  configuredWith Samples.transactions
    [ mock.Return (mock.On "ComputeInputScript" [mock.Anything; mock.Anything])
        [VString "script"; VNil] ].

End Fixtures.

(** ** Stating effects and interference *)


(** What [c] gives is the same whether or not [d] ran just before. *)
Definition undisturbed_by {A B} (c : M A) (d : M B) : Prop :=
  forall w, result (c (after (d w))) = result (c w).

(** ** The dispatcher with Run hooks *)

(** An expectation may carry test code, attached with [Run], that the
    dispatcher calls with the arguments of the call before it hands back the
    return values.  Such a hook reaches the transaction through the pointer
    among the arguments and may write to it.  Hooks are kept beside the mock,
    by the index of the expectation they are attached to. *)
Module WithRun.

Definition RunFn : Type := mock.Arguments -> Heap -> Heap.

(** [Mock.Called] with the hooks [hooks]: as [Called], and the hook of the
    answering expectation, if it has one, runs on the arguments once the call
    is logged. *)
Definition Called (hooks : gmap nat RunFn) (methodName : string)
    (arguments : mock.Arguments) : M mock.Arguments := fun w =>
  let m := self w in
  match mock.findExpectedCall (txs w) m methodName arguments with
  | (Some found, Some call) =>
      Returns (mock.ReturnArguments call)
        (mkWorld
           (match hooks !! found with
            | Some runFn => runFn arguments (txs w)
            | None => txs w
            end)
           (mock.mkMock (<[found := mock.consume call]> (mock.ExpectedCalls m))
                        (mock.Calls m ++ [(methodName, arguments)])))
  | (None, Some _) => Panics (CalledTooOften methodName) w
  | (_, None) => Panics (UnexpectedCall methodName) w
  end.

(** [MockInput.CraftInputScript] over that dispatcher. *)
Definition CraftInputScript (hooks : gmap nat RunFn) (signer : option Signer)
    (txn : option loc) (hashCache : option loc)
    (prevOutputFetcher : option PrevOutputFetcher) (txinIdx : Z)
    : M (option Script * option error) :=
  a ← Called hooks "CraftInputScript"
        [ofSigner signer; VMsgTxPtr txn; VSigHashesPtr hashCache;
         ofPrevOutputFetcher prevOutputFetcher; VInt txinIdx];
  s ← args.Get a 0;
  if isNil s then
    e ← args.Error a 1; mret (None, e)
  else
    e ← args.Error a 1;
    sp ← assertTo.ScriptPtr s;
    mret (sp, e).

(** A hook that sets the locktime of the transaction passed as second
    argument. *)
Definition setLockTime (lockTime : Z) : RunFn := fun a h =>
  match a !! 1%nat with
  | Some (VMsgTxPtr (Some l)) =>
      alter (fun tx => wire.mkMsgTx (wire.Version tx) (wire.TxIn_ tx)
                         (wire.TxOut_ tx) lockTime) l h
  | _ => h
  end.

End WithRun.

(** ** Sequences of MuSig2 operations *)

(** One call of a MuSig2 operation on the mock signer, and what it gave. *)
Inductive MuSig2Call :=
| RegisterNonces (sessionID : MuSig2SessionID) (pubNonces : list PubNonce)
| Sign (sessionID : MuSig2SessionID) (msg : list byte) (withSortedKeys : bool)
| CombineSig (sessionID : MuSig2SessionID)
    (partialSig : list (option PartialSignature)).

Inductive MuSig2Result :=
| Registered (r : bool * option error)
| Signed (r : option PartialSignature * option error)
| Combined (r : option SchnorrSignature * bool * option error).

(** The result of one operation, [None] for a panic, and the world it
    leaves. *)
Definition perform (c : MuSig2Call) (w : World) : option MuSig2Result * World :=
  match c with
  | RegisterNonces id ns =>
      (Registered <$> result (MockInputSigner.MuSig2RegisterNonces id ns w),
       after (MockInputSigner.MuSig2RegisterNonces id ns w))
  | Sign id msg b =>
      (Signed <$> result (MockInputSigner.MuSig2Sign id msg b w),
       after (MockInputSigner.MuSig2Sign id msg b w))
  | CombineSig id ps =>
      (Combined <$> result (MockInputSigner.MuSig2CombineSig id ps w),
       after (MockInputSigner.MuSig2CombineSig id ps w))
  end.

(** The results of a sequence of operations, made one after the other. *)
Fixpoint outcomes (calls : list MuSig2Call) (w : World)
    : list (option MuSig2Result) :=
  match calls with
  | [] => []
  | c :: rest => (perform c w).1 :: outcomes rest (perform c w).2
  end.

(** Two expectations are the same, or both belong to [method]; two worlds
    agree but for the expectations of [method]. *)
Definition same_but (method : string) (c1 c2 : mock.Call) : Prop :=
  c1 = c2 \/ (mock.Method c1 = method /\ mock.Method c2 = method).

Definition agree_but (method : string) (w1 w2 : World) : Prop :=
  txs w1 = txs w2
  /\ Forall2 (same_but method) (mock.ExpectedCalls (self w1))
       (mock.ExpectedCalls (self w2)).
(** ** The dispatcher's search *)

Section Search.
Context (h : Heap) (method : string) (a : mock.Arguments).

Lemma matches_consume (c : mock.Call) :
  mock.matches h method a (mock.consume c) = mock.matches h method a c.
Proof. reflexivity. Qed.

Lemma matches_method (c : mock.Call) :
  mock.matches h method a c = true -> mock.Method c = method.
Proof.
  unfold mock.matches. intros H.
  apply andb_true_iff in H as [H _]. by apply bool_decide_eq_true in H.
Qed.

(** A found index points at a matching expectation that is not used up. *)
Lemma findExpectedCallFrom_found (l : list mock.Call) :
  forall (i0 : nat) (acc : option mock.Call) (i : nat) (oc : option mock.Call),
    mock.findExpectedCallFrom h method a i0 l acc = (Some i, oc) ->
    exists c, oc = Some c /\ (i0 <= i)%nat /\ l !! (i - i0)%nat = Some c
              /\ mock.matches h method a c = true
              /\ -1 < mock.Repeatability c.
Proof.
  induction l as [|hd tl IH]; intros i0 acc i oc; simpl.
  - discriminate.
  - destruct (mock.matches h method a hd) eqn:Hm.
    + destruct (-1 <? mock.Repeatability hd) eqn:Hr.
      * intros [= <- <-]. exists hd. rewrite Nat.sub_diag.
        apply Z.ltb_lt in Hr. auto.
      * intros Hf. destruct (IH _ _ _ _ Hf) as (c & -> & Hle & Hl & Hc & Hrc).
        exists c. repeat split; auto; [lia|].
        replace (i - i0)%nat with (S (i - S i0)) by lia. exact Hl.
    + intros Hf. destruct (IH _ _ _ _ Hf) as (c & -> & Hle & Hl & Hc & Hrc).
      exists c. repeat split; auto; [lia|].
      replace (i - i0)%nat with (S (i - S i0)) by lia. exact Hl.
Qed.

(** Replacing an expectation that does not answer this call by another one
    that does not either leaves the search as it was. *)
Lemma findExpectedCallFrom_insert_other (l : list mock.Call) :
  forall (k i0 : nat) (acc : option mock.Call) (c c' : mock.Call),
    l !! k = Some c ->
    mock.matches h method a c = false ->
    mock.matches h method a c' = false ->
    mock.findExpectedCallFrom h method a i0 (<[k := c']> l) acc
    = mock.findExpectedCallFrom h method a i0 l acc.
Proof.
  induction l as [|hd tl IH]; intros k i0 acc c c' Hk Hc Hc'.
  - reflexivity.
  - destruct k as [|k]; simpl in *.
    + injection Hk as ->. by rewrite Hc, Hc'.
    + rewrite !(IH k _ _ c c' Hk Hc Hc'). reflexivity.
Qed.

(** Replacing the found expectation by one that still answers the call
    makes the search find the replacement at the same index. *)
Lemma findExpectedCallFrom_insert_found (l : list mock.Call) :
  forall (i0 : nat) (acc : option mock.Call) (i : nat) (c c' : mock.Call),
    mock.findExpectedCallFrom h method a i0 l acc = (Some i, Some c) ->
    mock.matches h method a c' = true ->
    -1 < mock.Repeatability c' ->
    mock.findExpectedCallFrom h method a i0 (<[(i - i0)%nat := c']> l) acc
    = (Some i, Some c').
Proof.
  induction l as [|hd tl IH]; intros i0 acc i c c' Hf Hm Hr; simpl in *.
  - discriminate.
  - destruct (mock.matches h method a hd) eqn:Hhd.
    + destruct (-1 <? mock.Repeatability hd) eqn:Hrep.
      * injection Hf as <- <-. rewrite Nat.sub_diag. simpl.
        rewrite Hm. apply Z.ltb_lt in Hr. by rewrite Hr.
      * destruct (findExpectedCallFrom_found _ _ _ _ _ Hf) as (_ & _ & Hle & _).
        replace (i - i0)%nat with (S (i - S i0)) by lia. simpl.
        rewrite Hhd, Hrep. eapply IH; eauto.
    + destruct (findExpectedCallFrom_found _ _ _ _ _ Hf) as (_ & _ & Hle & _).
      replace (i - i0)%nat with (S (i - S i0)) by lia. simpl.
      rewrite Hhd. eapply IH; eauto.
Qed.

End Search.

(** ** What a call to the dispatcher does *)

Lemma matched_found (w : World) (method : string) (a : mock.Arguments)
    (i : nat) (c : mock.Call) :
  matched w method a = Some (i, c) ->
  mock.ExpectedCalls (self w) !! i = Some c
  /\ mock.Method c = method
  /\ mock.matches (txs w) method a c = true
  /\ -1 < mock.Repeatability c.
Proof.
  unfold matched, mock.findExpectedCall.
  destruct (mock.findExpectedCallFrom _ _ _ _ _ _) as [[i'|] oc] eqn:Hf; [|discriminate].
  destruct (findExpectedCallFrom_found _ _ _ _ _ _ _ _ Hf) as (c' & -> & _ & Hl & Hm & Hr).
  intros [= <- <-]. rewrite Nat.sub_0_r in Hl.
  eauto using matches_method.
Qed.

Lemma Called_matched (w : World) (method : string) (a : mock.Arguments)
    (i : nat) (c : mock.Call) :
  matched w method a = Some (i, c) ->
  Called method a w = Returns (mock.ReturnArguments c) (answered w method a i c).
Proof.
  unfold matched, Called, answered.
  destruct (mock.findExpectedCall _ _ _ _) as [[i'|] [c'|]]; intros [=]; subst.
  reflexivity.
Qed.

Lemma Called_unmatched (w : World) (method : string) (a : mock.Arguments) :
  matched w method a = None -> exists p, Called method a w = Panics p w.
Proof.
  unfold matched, Called.
  destruct (mock.findExpectedCall _ _ _ _) as [[i'|] [c'|]]; intros [=]; eauto.
Qed.

Lemma Called_Returns (w w' : World) (method : string) (a r : mock.Arguments) :
  Called method a w = Returns r w' ->
  exists i c, matched w method a = Some (i, c)
              /\ r = mock.ReturnArguments c /\ w' = answered w method a i c.
Proof.
  destruct (matched w method a) as [[i c]|] eqn:Hm.
  - rewrite (Called_matched _ _ _ _ _ Hm). intros [= <- <-]. eauto.
  - destruct (Called_unmatched _ _ _ Hm) as [p ->]. discriminate.
Qed.

Lemma Called_reply (w : World) (method : string) (a r : mock.Arguments) :
  reply w method a = Some r ->
  exists w', Called method a w = Returns r w' /\ txs w' = txs w.
Proof.
  unfold reply. destruct (matched w method a) as [[i c]|] eqn:Hm; intros [= <-].
  rewrite (Called_matched _ _ _ _ _ Hm). eauto.
Qed.

Lemma Called_no_reply (w : World) (method : string) (a : mock.Arguments) :
  reply w method a = None -> exists p, Called method a w = Panics p w.
Proof.
  unfold reply. destruct (matched w method a) as [[i c]|] eqn:Hm; [discriminate|].
  intros _. by apply Called_unmatched.
Qed.

(** A call leaves the expectations of every other method as they were. *)
Lemma matched_answered_other (w : World) (m1 m2 : string)
    (a1 a2 : mock.Arguments) (i : nat) (c : mock.Call) :
  matched w m1 a1 = Some (i, c) -> m1 <> m2 ->
  matched (answered w m1 a1 i c) m2 a2 = matched w m2 a2.
Proof.
  intros Hm Hne. destruct (matched_found _ _ _ _ _ Hm) as (Hl & Hc & _).
  assert (Hno : mock.matches (txs w) m2 a2 c = false).
  { unfold mock.matches. rewrite bool_decide_eq_false_2; [done | congruence]. }
  unfold matched, mock.findExpectedCall, answered. simpl.
  by rewrite (findExpectedCallFrom_insert_other _ _ _ _ _ _ _ c (mock.consume c)).
Qed.

Lemma reply_Called_other (w w' : World) (m1 m2 : string)
    (a1 a2 r : mock.Arguments) :
  Called m1 a1 w = Returns r w' -> m1 <> m2 ->
  reply w' m2 a2 = reply w m2 a2.
Proof.
  intros Hc Hne. destruct (Called_Returns _ _ _ _ _ Hc) as (i & c & Hm & _ & ->).
  unfold reply. by rewrite (matched_answered_other _ _ _ _ _ _ _ Hm Hne).
Qed.

(** An expectation that is not on its last call answers the same call
    again. *)
Lemma matched_answered_again (w : World) (method : string)
    (a : mock.Arguments) (i : nat) (c : mock.Call) :
  matched w method a = Some (i, c) ->
  mock.Repeatability c = 0 \/ 1 < mock.Repeatability c ->
  matched (answered w method a i c) method a = Some (i, mock.consume c).
Proof.
  intros Hm Hr. destruct (matched_found _ _ _ _ _ Hm) as (_ & _ & Hmt & _).
  unfold matched, mock.findExpectedCall in *. unfold answered. simpl.
  destruct (mock.findExpectedCallFrom _ _ _ _ (mock.ExpectedCalls _) _)
    as [[i'|] [c'|]] eqn:Hf; try discriminate.
  injection Hm as -> ->.
  pose proof (findExpectedCallFrom_insert_found _ _ _ _ _ _ _ _ (mock.consume c)
                Hf Hmt) as Hi.
  rewrite Nat.sub_0_r in Hi. rewrite Hi; [done|].
  unfold mock.consume. simpl.
  destruct Hr as [-> | Hr]; [simpl; lia|].
  destruct (Z.eqb_spec (mock.Repeatability c) 1); [lia|].
  destruct (Z.ltb_spec 1 (mock.Repeatability c)); lia.
Qed.

Lemma Repeatability_consume (c : mock.Call) :
  mock.Repeatability c = 0 \/ 1 < mock.Repeatability c ->
  mock.Repeatability (mock.consume c)
  = if mock.Repeatability c =? 0 then 0 else mock.Repeatability c - 1.
Proof.
  unfold mock.consume. simpl. intros [-> | Hr]; [done|].
  destruct (Z.eqb_spec (mock.Repeatability c) 1); [lia|].
  destruct (Z.ltb_spec 1 (mock.Repeatability c)); [|lia].
  destruct (Z.eqb_spec (mock.Repeatability c) 0); [lia | done].
Qed.

(** ** Computations that leave the world alone *)

Create HintDb frame discriminated.

Lemma outcome_Returns {A} (o : Outcome A) (x : A) :
  result o = Some x -> o = Returns x (after o).
Proof. destruct o; simpl; congruence. Qed.

Lemma outcome_Panics {A} (o : Outcome A) :
  result o = None -> exists p, o = Panics p (after o).
Proof. destruct o; simpl; [discriminate | eauto]. Qed.

Lemma stateless_mret {A} (x : A) : stateless (mret x : M A).
Proof. exists (Some x). by intros w. Qed.

Lemma stateless_panic {A} (p : Panic) : stateless (panic p : M A).
Proof. exists None. by intros w. Qed.

Lemma stateless_bind {A B} (c : M A) (k : A -> M B) :
  stateless c -> (forall x, stateless (k x)) -> stateless (c ≫= k).
Proof.
  intros [o Ho] Hk. destruct o as [x|].
  - destruct (Hk x) as [o' Ho']. exists o'. intros w.
    destruct (Ho w) as [Hr Ha]. apply outcome_Returns in Hr. rewrite Ha in Hr.
    unfold mbind, M_bind. rewrite Hr. apply Ho'.
  - exists None. intros w. destruct (Ho w) as [Hr Ha].
    apply outcome_Panics in Hr as [p Hp]. rewrite Ha in Hp.
    unfold mbind, M_bind. by rewrite Hp.
Qed.

Lemma stateless_if {A} (b : bool) (c1 c2 : M A) :
  stateless c1 -> stateless c2 -> stateless (if b then c1 else c2).
Proof. by destruct b. Qed.

Lemma stateless_Get (a : mock.Arguments) (i : nat) : stateless (args.Get a i).
Proof.
  unfold args.Get. destruct (a !! i); [apply stateless_mret | apply stateless_panic].
Qed.

#[local] Hint Resolve stateless_mret stateless_panic stateless_Get stateless_if : frame.
#[local] Hint Extern 2 (stateless (_ ≫= _)) => (apply stateless_bind; [|intros ?]) : frame.
#[local] Hint Extern 3 (stateless (match ?v with _ => _ end)) => destruct v : frame.

Lemma stateless_Bool (a : mock.Arguments) (i : nat) : stateless (args.Bool a i).
Proof. unfold args.Bool. auto with frame. Qed.

Lemma stateless_String (a : mock.Arguments) (i : nat) : stateless (args.String a i).
Proof. unfold args.String. auto with frame. Qed.

Lemma stateless_Error (a : mock.Arguments) (i : nat) : stateless (args.Error a i).
Proof. unfold args.Error. auto with frame. Qed.

#[local] Hint Resolve stateless_Bool stateless_String stateless_Error : frame.

Lemma stateless_assertTo (v : Value) :
  stateless (assertTo.OutPoint v) /\ stateless (assertTo.TxOutPtr v)
  /\ stateless (assertTo.Uint32 v) /\ stateless (assertTo.WitnessType v)
  /\ stateless (assertTo.SignDescPtr v) /\ stateless (assertTo.ScriptPtr v)
  /\ stateless (assertTo.TxInfoPtr v) /\ stateless (assertTo.Generator v)
  /\ stateless (assertTo.WeightUnit v) /\ stateless (assertTo.Sig v)
  /\ stateless (assertTo.PartialSigPtr v) /\ stateless (assertTo.SchnorrSigPtr v).
Proof. repeat split; destruct v; simpl; auto with frame. Qed.

#[local] Hint Extern 1 (stateless (assertTo.OutPoint _)) => apply stateless_assertTo : frame.
#[local] Hint Extern 1 (stateless (assertTo.TxOutPtr _)) => apply stateless_assertTo : frame.
#[local] Hint Extern 1 (stateless (assertTo.Uint32 _)) => apply stateless_assertTo : frame.
#[local] Hint Extern 1 (stateless (assertTo.WitnessType _)) => apply stateless_assertTo : frame.
#[local] Hint Extern 1 (stateless (assertTo.SignDescPtr _)) => apply stateless_assertTo : frame.
#[local] Hint Extern 1 (stateless (assertTo.ScriptPtr _)) => apply stateless_assertTo : frame.
#[local] Hint Extern 1 (stateless (assertTo.TxInfoPtr _)) => apply stateless_assertTo : frame.
#[local] Hint Extern 1 (stateless (assertTo.Generator _)) => apply stateless_assertTo : frame.
#[local] Hint Extern 1 (stateless (assertTo.WeightUnit _)) => apply stateless_assertTo : frame.
#[local] Hint Extern 1 (stateless (assertTo.Sig _)) => apply stateless_assertTo : frame.
#[local] Hint Extern 1 (stateless (assertTo.PartialSigPtr _)) => apply stateless_assertTo : frame.
#[local] Hint Extern 1 (stateless (assertTo.SchnorrSigPtr _)) => apply stateless_assertTo : frame.

Lemma stateless_keeps_txs {A} (c : M A) : stateless c -> keeps_txs c.
Proof. intros [o Ho] w. destruct (Ho w) as [_ Ha]. by rewrite Ha. Qed.

Lemma Called_keeps_txs (method : string) (a : mock.Arguments) :
  keeps_txs (Called method a).
Proof.
  intros w. unfold Called.
  by destruct (mock.findExpectedCall _ _ _ _) as [[i|] [c|]].
Qed.

Lemma bind_keeps_txs {A B} (c : M A) (k : A -> M B) :
  keeps_txs c -> (forall x, keeps_txs (k x)) -> keeps_txs (c ≫= k).
Proof.
  intros Hc Hk w. unfold mbind, M_bind. specialize (Hc w).
  destruct (c w) as [x w'|p w']; simpl in *; [|done].
  by rewrite Hk.
Qed.

(** A method is one dispatcher call followed by decoding: the transactions
    stay as they are, and the result depends on the world through the
    configured reply only. *)
Lemma Called_then_keeps_txs {A} (method : string) (a : mock.Arguments)
    (k : mock.Arguments -> M A) :
  (forall r, stateless (k r)) -> keeps_txs (Called method a ≫= k).
Proof.
  intros Hk. apply bind_keeps_txs; [apply Called_keeps_txs|].
  intros r. by apply stateless_keeps_txs.
Qed.

Lemma Called_then_result {A} (method : string) (a : mock.Arguments)
    (k : mock.Arguments -> M A) (w1 w2 : World) :
  (forall r, stateless (k r)) ->
  reply w1 method a = reply w2 method a ->
  result ((Called method a ≫= k) w1) = result ((Called method a ≫= k) w2).
Proof.
  intros Hk Hr. unfold mbind, M_bind.
  destruct (reply w1 method a) as [r|] eqn:H1.
  - symmetry in Hr.
    destruct (Called_reply _ _ _ _ H1) as (w1' & -> & _).
    destruct (Called_reply _ _ _ _ Hr) as (w2' & -> & _).
    destruct (Hk r) as [o Ho].
    destruct (Ho w1') as [-> _]. by destruct (Ho w2') as [-> _].
  - symmetry in Hr.
    destruct (Called_no_reply _ _ _ H1) as [p1 ->].
    by destruct (Called_no_reply _ _ _ Hr) as [p2 ->].
Qed.

Lemma after_Called_then {A} (method : string) (a : mock.Arguments)
    (k : mock.Arguments -> M A) (w : World) :
  (forall r, stateless (k r)) ->
  after ((Called method a ≫= k) w) = after (Called method a w).
Proof.
  intros Hk. unfold mbind, M_bind.
  destruct (Called method a w) as [r w'|p w']; [|done].
  destruct (Hk r) as [o Ho]. by destruct (Ho w') as [_ ->].
Qed.

Lemma after_Called (w : World) (method : string) (a : mock.Arguments) :
  after (Called method a w)
  = match matched w method a with
    | Some (i, c) => answered w method a i c
    | None => w
    end.
Proof.
  destruct (matched w method a) as [[i c]|] eqn:Hm.
  - by rewrite (Called_matched _ _ _ _ _ Hm).
  - by destruct (Called_unmatched _ _ _ Hm) as [p ->].
Qed.

(** ** MockInput *)

(** Running a method whose dispatcher call is answered with [r]. *)
Ltac answer H :=
  let w' := fresh "w'" in
  let Hc := fresh "Hc" in
  destruct (Called_reply _ _ _ _ H) as (w' & Hc & _);
  unfold mbind, M_bind; rewrite Hc; clear Hc.

(** The dispatcher with hooks differs from the plain one in the transaction
    store it leaves, and only when the answering expectation has a hook. *)
Lemma after_WithRun_Called (hooks : gmap nat WithRun.RunFn) (method : string)
    (a : mock.Arguments) (w : World) :
  after (WithRun.Called hooks method a w)
  = match matched w method a with
    | Some (i, c) =>
        mkWorld
          (match hooks !! i with
           | Some runFn => runFn a (txs w)
           | None => txs w
           end)
          (self (answered w method a i c))
    | None => w
    end.
Proof.
  unfold WithRun.Called, matched, answered.
  by destruct (mock.findExpectedCall _ _ _ _) as [[i|] [c|]].
Qed.

Lemma WithRun_Called_no_hooks (method : string) (a : mock.Arguments) (w : World) :
  WithRun.Called ∅ method a w = Called method a w.
Proof.
  unfold WithRun.Called, Called.
  destruct (mock.findExpectedCall _ _ _ _) as [[i|] [c|]];
    by rewrite ?lookup_empty.
Qed.

Lemma after_bind_stateless {A B} (c : M A) (k : A -> M B) (w : World) :
  (forall x, stateless (k x)) -> after ((c ≫= k) w) = after (c w).
Proof.
  intros Hk. unfold mbind, M_bind.
  destruct (c w) as [x w'|p w']; [|done].
  destruct (Hk x) as [o Ho]. by destruct (Ho w') as [_ ->].
Qed.

(** The claim of C3 as written fails twice.  A Run hook attached to the
    expectation receives the transaction pointer and can write through it:
    here the locktime of the transaction passed in is 0 before the call and
    500000 after it.  And without any hook the call has an effect that is not
    a delegation to the Signer: the mock itself is changed. *)
Lemma CraftInputScript_hook_writes_transaction :
  wire.LockTime <$> txs Samples.nilInput !! 1%positive = Some 0
  /\ wire.LockTime
       <$> txs (after (WithRun.CraftInputScript
                        {[ 4%nat := WithRun.setLockTime 500000 ]}
                        Samples.signer Samples.txn None None 0
                        Samples.nilInput)) !! 1%positive
     = Some 500000
  /\ ~ (forall hooks signer txn hashCache prevOutputFetcher txinIdx w,
          txs (after (WithRun.CraftInputScript hooks signer txn hashCache
                        prevOutputFetcher txinIdx w)) = txs w)
  /\ after (MockInput.CraftInputScript Samples.signer Samples.txn None None 0
              Samples.nilInput) <> Samples.nilInput.
Proof.
  split; [reflexivity|]. split; [reflexivity|]. split.
  - intros H.
    specialize (H {[ 4%nat := WithRun.setLockTime 500000 ]} Samples.signer
                  Samples.txn None None 0 Samples.nilInput).
    apply (f_equal (fun h : Heap => wire.LockTime <$> h !! 1%positive)) in H.
    vm_compute in H. discriminate.
  - intros H.
    apply (f_equal (fun w => length (mock.Calls (self w)))) in H.
    vm_compute in H. discriminate.
Qed.

(** C3, amended. CraftInputScript never writes to the transaction itself and
    never calls the Signer: whether it returns or panics, its whole effect is
    that of its one dispatcher call.  When an expectation answers, that
    expectation is consumed, the call is logged with the five arguments, and
    the transaction store is what the Run hook of that expectation makes of
    it; without a hook on it, and when no expectation answers, the
    transaction store is left as it was.  Without hooks the method is the
    plain one, which leaves every transaction unchanged. *)
Theorem CraftInputScript_effect
    (hooks : gmap nat WithRun.RunFn)
    (signer : option Signer) (txn hashCache : option loc)
    (prevOutputFetcher : option PrevOutputFetcher) (txinIdx : Z) (w : World) :
  after (WithRun.CraftInputScript hooks signer txn hashCache prevOutputFetcher
           txinIdx w)
  = match matched w "CraftInputScript"
            [ofSigner signer; VMsgTxPtr txn; VSigHashesPtr hashCache;
             ofPrevOutputFetcher prevOutputFetcher; VInt txinIdx] with
    | Some (i, c) =>
        mkWorld
          (match hooks !! i with
           | Some runFn =>
               runFn [ofSigner signer; VMsgTxPtr txn; VSigHashesPtr hashCache;
                      ofPrevOutputFetcher prevOutputFetcher; VInt txinIdx]
                 (txs w)
           | None => txs w
           end)
          (mock.mkMock
             (<[i := mock.consume c]> (mock.ExpectedCalls (self w)))
             (mock.Calls (self w)
              ++ [("CraftInputScript"%string,
                   [ofSigner signer; VMsgTxPtr txn; VSigHashesPtr hashCache;
                    ofPrevOutputFetcher prevOutputFetcher; VInt txinIdx])]))
    | None => w
    end
  /\ WithRun.CraftInputScript ∅ signer txn hashCache prevOutputFetcher txinIdx w
     = MockInput.CraftInputScript signer txn hashCache prevOutputFetcher
         txinIdx w
  /\ txs (after (MockInput.CraftInputScript signer txn hashCache
                   prevOutputFetcher txinIdx w)) = txs w.
Proof.
  split; [|split].
  - unfold WithRun.CraftInputScript.
    rewrite after_bind_stateless by (intros r; auto 8 with frame).
    by rewrite after_WithRun_Called.
  - unfold WithRun.CraftInputScript, MockInput.CraftInputScript, mbind, M_bind.
    by rewrite WithRun_Called_no_hooks.
  - unfold MockInput.CraftInputScript.
    apply Called_then_keeps_txs. intros r. auto 8 with frame.
Qed.

(** C8. The accessors with a pointer or interface result do not panic on a
    nil configured value: when the expectation that answers the call returns
    the nil interface first, RequiredTxOut, WitnessType, SignDesc and
    UnconfParent each return nil. *)
Theorem nil_accessors_return_nil (w : World) (rest : mock.Arguments) :
  (reply w "RequiredTxOut" [] = Some (VNil :: rest) ->
     result (MockInput.RequiredTxOut w) = Some None)
  /\ (reply w "WitnessType" [] = Some (VNil :: rest) ->
     result (MockInput.WitnessType w) = Some None)
  /\ (reply w "SignDesc" [] = Some (VNil :: rest) ->
     result (MockInput.SignDesc w) = Some None)
  /\ (reply w "UnconfParent" [] = Some (VNil :: rest) ->
     result (MockInput.UnconfParent w) = Some None).
Proof.
  repeat split; intros H.
  - unfold MockInput.RequiredTxOut. by answer H.
  - unfold MockInput.WitnessType. by answer H.
  - unfold MockInput.SignDesc. by answer H.
  - unfold MockInput.UnconfParent. by answer H.
Qed.

Lemma nil_accessors_return_nil_witness :
  result (MockInput.RequiredTxOut Samples.nilInput) = Some None
  /\ result (MockInput.WitnessType Samples.nilInput) = Some None
  /\ result (MockInput.SignDesc Samples.nilInput) = Some None
  /\ result (MockInput.UnconfParent Samples.nilInput) = Some None.
Proof.
  pose proof (nil_accessors_return_nil Samples.nilInput []) as (H1 & H2 & H3 & H4).
  split; [|split; [|split]]; [apply H1 | apply H2 | apply H3 | apply H4];
    reflexivity.
Defined.

(** The accessors without a nil guard are not total: a nil configured value
    makes the type assertion fail. *)
Lemma unguarded_accessors_panic_on_nil (w : World) (rest : mock.Arguments) :
  (reply w "OutPoint" [] = Some (VNil :: rest) ->
     result (MockInput.OutPoint w) = None)
  /\ (reply w "BlocksToMaturity" [] = Some (VNil :: rest) ->
     result (MockInput.BlocksToMaturity w) = None)
  /\ (reply w "HeightHint" [] = Some (VNil :: rest) ->
     result (MockInput.HeightHint w) = None)
  /\ (reply w "WitnessGenerator" [] = Some (VNil :: rest) ->
     forall signer descriptor,
       result (MockWitnessType.WitnessGenerator signer descriptor w) = None).
Proof.
  repeat split; intros H.
  - unfold MockInput.OutPoint. by answer H.
  - unfold MockInput.BlocksToMaturity. by answer H.
  - unfold MockInput.HeightHint. by answer H.
  - intros signer descriptor. unfold MockWitnessType.WitnessGenerator.
    by answer H.
Qed.

(** Unfolding the decoding steps, and case analysis on a configured value
    that leaves the cases in which hypothesis [H] can hold. *)
Ltac decoders :=
  unfold assertTo.OutPoint, assertTo.TxOutPtr, assertTo.Uint32,
    assertTo.WitnessType, assertTo.SignDescPtr, assertTo.ScriptPtr,
    assertTo.TxInfoPtr, assertTo.Generator, assertTo.WeightUnit, assertTo.Sig,
    assertTo.PartialSigPtr, assertTo.SchnorrSigPtr,
    args.Error, args.Bool, args.String, args.Get, mbind, M_bind, mret,
    M_ret, panic in *.

Ltac configured H v := destruct v; simpl in H; try discriminate H.

(** The claim of C2 as written, that a returned pair is never (nil, nil),
    fails: with [Return(nil, nil)] CraftInputScript returns a nil Script
    and a nil error. *)
Lemma CraftInputScript_returns_neither :
  result (MockInput.CraftInputScript Samples.signer Samples.txn None None 0
            Samples.nilInput) = Some (None, None)
  /\ ~ (forall signer txn hashCache prevOutputFetcher txinIdx w s e,
          result (MockInput.CraftInputScript signer txn hashCache
                    prevOutputFetcher txinIdx w) = Some (s, e) ->
          is_Some s \/ is_Some e).
Proof.
  split; [reflexivity|].
  intros H.
  destruct (H Samples.signer Samples.txn None None 0 Samples.nilInput None None
              eq_refl) as [[x Hx]|[x Hx]]; discriminate.
Qed.

(** C2, amended. CraftInputScript returns exactly the pair the answering
    expectation is configured with: it returns script [s] and error [e] if
    and only if the first configured value reads as [s] (the nil interface
    and a nil Script pointer both read as nil) and the second reads as [e]
    (nil or an error).  Nothing ties the two together. *)
Theorem CraftInputScript_returns_configured
    (signer : option Signer) (txn hashCache : option loc)
    (prevOutputFetcher : option PrevOutputFetcher) (txinIdx : Z) (w : World)
    (s : option Script) (e : option error) :
  result (MockInput.CraftInputScript signer txn hashCache prevOutputFetcher
            txinIdx w) = Some (s, e)
  <-> exists r v0 v1,
        reply w "CraftInputScript"
          [ofSigner signer; VMsgTxPtr txn; VSigHashesPtr hashCache;
           ofPrevOutputFetcher prevOutputFetcher; VInt txinIdx] = Some r
        /\ r !! 0%nat = Some v0 /\ r !! 1%nat = Some v1
        /\ asScriptPtr v0 = Some s /\ asError v1 = Some e.
Proof.
  unfold MockInput.CraftInputScript. split.
  - destruct (reply w "CraftInputScript" _) as [r|] eqn:Hr.
    + answer Hr. decoders. intros H. exists r.
      destruct (r !! 0%nat) as [v0|] eqn:H0; [|discriminate H].
      configured H v0;
        (destruct (r !! 1%nat) as [v1|] eqn:H1; [|discriminate H]);
        configured H v1; injection H as <- <-; eauto 10.
    + destruct (Called_no_reply _ _ _ Hr) as [p Hp].
      unfold mbind, M_bind. by rewrite Hp.
  - intros (r & v0 & v1 & Hr & H0 & H1 & Hs & He).
    answer Hr. decoders. rewrite H0.
    configured Hs v0; rewrite H1; configured He v1; by simplify_eq.
Qed.

(** ** Methods as one answered call *)

Lemma reply_after_Called_other (w : World) (m1 m2 : string)
    (a1 a2 : mock.Arguments) :
  m1 <> m2 -> reply (after (Called m1 a1 w)) m2 a2 = reply w m2 a2.
Proof.
  intros Hne. destruct (Called m1 a1 w) as [r w'|p w'] eqn:Hc.
  - simpl. eauto using reply_Called_other.
  - unfold Called in Hc.
    destruct (mock.findExpectedCall _ _ _ _) as [[i|] [c|]]; by simplify_eq.
Qed.

(** Repeating a call within the limit of the expectation that answers it:
    the same expectation, with the same return values, keeps answering. *)
Lemma matched_repeated {A} (method : string) (a : mock.Arguments)
    (k : mock.Arguments -> M A) (w : World) (i : nat) (c : mock.Call) (n : nat) :
  (forall r, stateless (k r)) ->
  matched w method a = Some (i, c) -> lasts c n ->
  exists c', matched (repeated (Called method a ≫= k) n w) method a = Some (i, c')
             /\ mock.ReturnArguments c' = mock.ReturnArguments c
             /\ mock.Repeatability c'
                = if mock.Repeatability c =? 0 then 0
                  else mock.Repeatability c - Z.of_nat n.
Proof.
  intros Hk Hm. unfold lasts. induction n as [|n IH]; intros Hl; simpl.
  - exists c. repeat split; [done|].
    destruct (Z.eqb_spec (mock.Repeatability c) 0); lia.
  - destruct IH as (c' & Hm' & Hret & Hrep).
    { destruct Hl as [Hl|Hl]; [by left | right; lia]. }
    assert (Hgo : mock.Repeatability c' = 0 \/ 1 < mock.Repeatability c').
    { rewrite Hrep. destruct (Z.eqb_spec (mock.Repeatability c) 0); [by left|].
      destruct Hl as [Hl|Hl]; [done | right; lia]. }
    exists (mock.consume c'). unfold repeated in *.
    rewrite after_Called_then, after_Called, Hm' by done.
    rewrite (matched_answered_again _ _ _ _ _ Hm' Hgo).
    repeat split; [done|].
    rewrite (Repeatability_consume _ Hgo), Hrep.
    destruct (Z.eqb_spec (mock.Repeatability c) 0); [done|].
    destruct (Z.eqb_spec (mock.Repeatability c - Z.of_nat n) 0); lia.
Qed.

Lemma result_repeated {A} (method : string) (a : mock.Arguments)
    (k : mock.Arguments -> M A) (w : World) (i : nat) (c : mock.Call) (n : nat) :
  (forall r, stateless (k r)) ->
  matched w method a = Some (i, c) -> lasts c n ->
  result ((Called method a ≫= k) (repeated (Called method a ≫= k) n w))
  = result ((Called method a ≫= k) w).
Proof.
  intros Hk Hm Hl.
  destruct (matched_repeated method a k w i c n Hk Hm Hl) as (c' & Hm' & Hret & _).
  apply Called_then_result; [done|].
  unfold reply. by rewrite Hm', Hm, Hret.
Qed.

(** ** MockInputSigner *)

(** The claim of C7 as written fails both ways: with [Return(nil, nil)]
    SignOutputRaw returns neither a signature nor an error, and with a
    signature and an error configured it returns a non-nil Signature on the
    failure path. *)
Lemma SignOutputRaw_neither_and_both :
  result (MockInputSigner.SignOutputRaw Samples.txn Samples.descriptor
            Samples.signerWithNothing) = Some (None, None)
  /\ result (MockInputSigner.SignOutputRaw Samples.txn Samples.descriptor
               Samples.signerWithBoth)
     = Some (Some Samples.signature, Some "key unavailable"%string)
  /\ ~ (forall tx signDesc w s e,
          result (MockInputSigner.SignOutputRaw tx signDesc w) = Some (s, e) ->
          (is_Some s \/ is_Some e) /\ (is_Some e -> s = None)).
Proof.
  split; [reflexivity|]. split; [reflexivity|].
  intros H.
  destruct (H Samples.txn Samples.descriptor Samples.signerWithNothing None None
              eq_refl) as [[[x Hx]|[x Hx]] _]; discriminate.
Qed.

(** C7, amended. SignOutputRaw returns exactly the pair the answering
    expectation is configured with: signature [s] and error [e] are returned
    if and only if the first configured value reads as [s] (nil, or a
    Signature) and the second as [e] (nil, or an error).  In particular a nil
    configured signature yields a nil Signature together with the configured
    error, which may be nil too. *)
Theorem SignOutputRaw_returns_configured
    (tx : option loc) (signDesc : option SignDescriptor) (w : World)
    (s : option Signature) (e : option error) :
  result (MockInputSigner.SignOutputRaw tx signDesc w) = Some (s, e)
  <-> exists r v0 v1,
        reply w "SignOutputRaw" [VMsgTxPtr tx; VSignDescPtr signDesc] = Some r
        /\ r !! 0%nat = Some v0 /\ r !! 1%nat = Some v1
        /\ asSignature v0 = Some s /\ asError v1 = Some e.
Proof.
  unfold MockInputSigner.SignOutputRaw. split.
  - destruct (reply w "SignOutputRaw" _) as [r|] eqn:Hr.
    + answer Hr. decoders. intros H. exists r.
      destruct (r !! 0%nat) as [v0|] eqn:H0; [|discriminate H].
      configured H v0;
        (destruct (r !! 1%nat) as [v1|] eqn:H1; [|discriminate H]);
        configured H v1; injection H as <- <-; eauto 10.
    + destruct (Called_no_reply _ _ _ Hr) as [p Hp].
      unfold mbind, M_bind. by rewrite Hp.
  - intros (r & v0 & v1 & Hr & H0 & H1 & Hs & He).
    answer Hr. decoders. rewrite H0.
    configured Hs v0; rewrite H1; configured He v1; by simplify_eq.
Qed.

(** The claim of C9 as written fails for a typed nil: configured with a nil
    pointer of type schnorr.Signature and [true], MuSig2CombineSig returns a
    nil aggregate signature together with [true]. *)
Lemma MuSig2CombineSig_nil_and_true :
  result (MockInputSigner.MuSig2CombineSig Samples.sessionID []
            Samples.typedNilCombiner) = Some (None, true, None)
  /\ ~ (forall sessionID partialSig w b e,
          result (MockInputSigner.MuSig2CombineSig sessionID partialSig w)
          = Some (None, b, e) -> b = false).
Proof.
  split; [reflexivity|].
  intros H.
  by specialize (H Samples.sessionID [] Samples.typedNilCombiner true None eq_refl).
Qed.

(** C9, amended. MuSig2CombineSig returns a nil aggregate signature in two
    cases only.  When the first configured value is the nil interface, the
    configured boolean is discarded and [false] is returned with the
    configured error.  When it is a nil pointer of type schnorr.Signature,
    the nil pointer is returned with the configured boolean and error. *)
Theorem MuSig2CombineSig_nil_signature
    (sessionID : MuSig2SessionID) (partialSig : list (option PartialSignature))
    (w : World) (b : bool) (e : option error) :
  result (MockInputSigner.MuSig2CombineSig sessionID partialSig w)
  = Some (None, b, e)
  <-> exists r v0 v2,
        reply w "MuSig2CombineSig" [VSessionID sessionID; VPartialSigs partialSig]
        = Some r
        /\ r !! 0%nat = Some v0 /\ r !! 2%nat = Some v2 /\ asError v2 = Some e
        /\ ((v0 = VNil /\ b = false)
            \/ (v0 = VSchnorrSigPtr None /\ r !! 1%nat = Some (VBool b))).
Proof.
  unfold MockInputSigner.MuSig2CombineSig. split.
  - destruct (reply w "MuSig2CombineSig" _) as [r|] eqn:Hr.
    + answer Hr. decoders. intros H. exists r.
      destruct (r !! 0%nat) as [v0|] eqn:H0; [|discriminate H].
      destruct v0; simpl in H.
      1: { destruct (r !! 2%nat) as [v2|] eqn:H2; [|discriminate H].
           configured H v2; injection H as <- <-; eauto 10. }
      all: (destruct (r !! 1%nat) as [v1|] eqn:H1; [|discriminate H]);
        configured H v1;
        (destruct (r !! 2%nat) as [v2|] eqn:H2; [|discriminate H]);
        configured H v2; injection H as -> <- <-; eauto 10.
    + destruct (Called_no_reply _ _ _ Hr) as [p Hp].
      unfold mbind, M_bind. by rewrite Hp.
  - intros (r & v0 & v2 & Hr & H0 & H2 & He & [[-> ->]|[-> H1]]);
      answer Hr; decoders; rewrite H0; simpl; [|rewrite H1; simpl];
      rewrite H2; configured He v2; by simplify_eq.
Qed.

(** The claim of C4 as written fails: the mock has no session store, and
    after a successful MuSig2Cleanup of a session MuSig2Sign on that session
    still returns a partial signature and no error. *)
Lemma MuSig2Sign_after_cleanup_succeeds :
  result (MockInputSigner.MuSig2Cleanup Samples.sessionID Samples.musigSigner)
  = Some None
  /\ result (MockInputSigner.MuSig2Sign Samples.sessionID Samples.message true
               (after (MockInputSigner.MuSig2Cleanup Samples.sessionID
                         Samples.musigSigner)))
     = Some (Some Samples.partialSigA, None)
  /\ ~ (forall sessionID w msg withSortedKeys s e,
          result (MockInputSigner.MuSig2Sign sessionID msg withSortedKeys
                    (after (MockInputSigner.MuSig2Cleanup sessionID w)))
          = Some (s, e) -> is_Some e).
Proof.
  split; [reflexivity|]. split; [reflexivity|].
  intros H.
  destruct (H Samples.sessionID Samples.musigSigner Samples.message true
              (Some Samples.partialSigA) None eq_refl) as [x Hx].
  discriminate.
Qed.

(** Worlds that agree but for the expectations of one method give the same
    answers to every other method, and still agree afterwards. *)
Lemma same_but_refl (method : string) (l : list mock.Call) :
  Forall2 (same_but method) l l.
Proof. induction l; constructor; [by left | done]. Qed.

Lemma findExpectedCallFrom_agree (h : Heap) (m0 m : string)
    (a : mock.Arguments) (l1 l2 : list mock.Call) :
  Forall2 (same_but m0) l1 l2 -> m <> m0 ->
  forall i0 acc,
    mock.findExpectedCallFrom h m a i0 l1 acc
    = mock.findExpectedCallFrom h m a i0 l2 acc.
Proof.
  intros HF Hne. induction HF as [|c1 c2 l1 l2 Hc HF IH]; intros i0 acc; simpl.
  - done.
  - destruct Hc as [<- | [H1 H2]].
    + by rewrite !IH.
    + unfold mock.matches.
      rewrite !bool_decide_eq_false_2 by congruence. simpl. apply IH.
Qed.

Lemma matched_agree (m0 m : string) (a : mock.Arguments) (w1 w2 : World) :
  agree_but m0 w1 w2 -> m <> m0 -> matched w1 m a = matched w2 m a.
Proof.
  intros [Ht HF] Hne. unfold matched, mock.findExpectedCall.
  by rewrite Ht, (findExpectedCallFrom_agree _ m0 m a _ _ HF Hne).
Qed.

Lemma step_agree {A} (m0 m : string) (a : mock.Arguments)
    (k : mock.Arguments -> M A) (w1 w2 : World) :
  (forall r, stateless (k r)) -> m <> m0 -> agree_but m0 w1 w2 ->
  result ((Called m a ≫= k) w1) = result ((Called m a ≫= k) w2)
  /\ agree_but m0 (after ((Called m a ≫= k) w1)) (after ((Called m a ≫= k) w2)).
Proof.
  intros Hk Hne Hag. pose proof (matched_agree _ _ a _ _ Hag Hne) as Hm. split.
  - apply Called_then_result; [done|]. unfold reply. by rewrite Hm.
  - rewrite !after_Called_then, !after_Called, Hm by done.
    destruct (matched w2 m a) as [[i c]|]; [|done].
    destruct Hag as [Ht HF]. split; [done|].
    unfold answered. simpl. apply Forall2_insert; [done | by left].
Qed.

Lemma perform_agree (c : MuSig2Call) (w1 w2 : World) :
  agree_but "MuSig2Cleanup" w1 w2 ->
  (perform c w1).1 = (perform c w2).1
  /\ agree_but "MuSig2Cleanup" (perform c w1).2 (perform c w2).2.
Proof.
  intros Hag. destruct c; simpl.
  - assert (H : result (MockInputSigner.MuSig2RegisterNonces sessionID
                          pubNonces w1)
                = result (MockInputSigner.MuSig2RegisterNonces sessionID
                            pubNonces w2)
                /\ agree_but "MuSig2Cleanup"
                     (after (MockInputSigner.MuSig2RegisterNonces sessionID
                               pubNonces w1))
                     (after (MockInputSigner.MuSig2RegisterNonces sessionID
                               pubNonces w2))).
    { unfold MockInputSigner.MuSig2RegisterNonces.
      apply step_agree; [intros r; auto 10 with frame | discriminate | done]. }
    by destruct H as [-> H].
  - assert (H : result (MockInputSigner.MuSig2Sign sessionID msg
                          withSortedKeys w1)
                = result (MockInputSigner.MuSig2Sign sessionID msg
                            withSortedKeys w2)
                /\ agree_but "MuSig2Cleanup"
                     (after (MockInputSigner.MuSig2Sign sessionID msg
                               withSortedKeys w1))
                     (after (MockInputSigner.MuSig2Sign sessionID msg
                               withSortedKeys w2))).
    { unfold MockInputSigner.MuSig2Sign.
      apply step_agree; [intros r; auto 10 with frame | discriminate | done]. }
    by destruct H as [-> H].
  - assert (H : result (MockInputSigner.MuSig2CombineSig sessionID
                          partialSig w1)
                = result (MockInputSigner.MuSig2CombineSig sessionID
                            partialSig w2)
                /\ agree_but "MuSig2Cleanup"
                     (after (MockInputSigner.MuSig2CombineSig sessionID
                               partialSig w1))
                     (after (MockInputSigner.MuSig2CombineSig sessionID
                               partialSig w2))).
    { unfold MockInputSigner.MuSig2CombineSig.
      apply step_agree; [intros r; auto 10 with frame | discriminate | done]. }
    by destruct H as [-> H].
Qed.

Lemma outcomes_agree (calls : list MuSig2Call) :
  forall w1 w2, agree_but "MuSig2Cleanup" w1 w2 ->
                outcomes calls w1 = outcomes calls w2.
Proof.
  induction calls as [|c rest IH]; intros w1 w2 Hag; simpl; [done|].
  destruct (perform_agree c w1 w2 Hag) as [-> Hag']. f_equal. by apply IH.
Qed.

(** C4, amended. MuSig2Cleanup destroys nothing.  It returns the configured
    error, nil for a configured nil; its whole effect is that of its one
    dispatcher call, which consumes its own expectation and logs the call,
    or changes nothing when no expectation answers.  Every sequence of
    MuSig2RegisterNonces, MuSig2Sign and MuSig2CombineSig calls made after
    it, on the cleaned-up session or on any other, gives call by call the
    results it would have given without the cleanup. *)
Theorem MuSig2Cleanup_changes_no_answer
    (cleaned : MuSig2SessionID) (w : World) :
  (forall e,
     result (MockInputSigner.MuSig2Cleanup cleaned w) = Some e
     <-> exists r v0, reply w "MuSig2Cleanup" [VSessionID cleaned] = Some r
                      /\ r !! 0%nat = Some v0 /\ asError v0 = Some e)
  /\ after (MockInputSigner.MuSig2Cleanup cleaned w)
     = match matched w "MuSig2Cleanup" [VSessionID cleaned] with
       | Some (i, c) => answered w "MuSig2Cleanup" [VSessionID cleaned] i c
       | None => w
       end
  /\ forall calls : list MuSig2Call,
       outcomes calls (after (MockInputSigner.MuSig2Cleanup cleaned w))
       = outcomes calls w.
Proof.
  split; [|split].
  - intros e. unfold MockInputSigner.MuSig2Cleanup. split.
    + destruct (reply w "MuSig2Cleanup" _) as [r|] eqn:Hr.
      * answer Hr. decoders. intros H. exists r.
        destruct (r !! 0%nat) as [v0|] eqn:H0; [|discriminate H].
        exists v0. configured H v0; by injection H as <-.
      * destruct (Called_no_reply _ _ _ Hr) as [p Hp].
        unfold mbind, M_bind. by rewrite Hp.
    + intros (r & v0 & Hr & H0 & He). answer Hr. decoders. rewrite H0.
      configured He v0; by simplify_eq.
  - unfold MockInputSigner.MuSig2Cleanup.
    rewrite after_Called_then by auto with frame. apply after_Called.
  - intros calls. apply outcomes_agree.
    unfold MockInputSigner.MuSig2Cleanup.
    rewrite after_Called_then, after_Called by auto with frame.
    destruct (matched w "MuSig2Cleanup" _) as [[i c]|] eqn:Hm.
    + destruct (matched_found _ _ _ _ _ Hm) as (Hl & Hc & _).
      split; [done|]. unfold answered. simpl.
      rewrite <- (list_insert_id _ _ _ Hl) at 2.
      apply Forall2_insert; [apply same_but_refl | by right].
    + split; [done | apply same_but_refl].
Qed.

(** The claim of C5 as written fails.  Registering the same nonce a second
    time does not leave the state of the first registration: the call log
    has grown.  Nor is the answer tied to the nonces present: the mock says
    [true] to a registration that carries no nonce at all, and a scripted
    mock says [true] the first time and [false] when the same nonce is
    registered again. *)
Lemma MuSig2RegisterNonces_not_idempotent :
  result (MockInputSigner.MuSig2RegisterNonces Samples.sessionID []
            Samples.musigSigner) = Some (true, None)
  /\ result (MockInputSigner.MuSig2RegisterNonces Samples.sessionID
               [Samples.pubNonce] Samples.scriptedSigner) = Some (true, None)
  /\ result (MockInputSigner.MuSig2RegisterNonces Samples.sessionID
               [Samples.pubNonce]
               (after (MockInputSigner.MuSig2RegisterNonces Samples.sessionID
                         [Samples.pubNonce] Samples.scriptedSigner)))
     = Some (false, None)
  /\ ~ (forall sessionID pubNonces w,
          after (MockInputSigner.MuSig2RegisterNonces sessionID pubNonces
                   (after (MockInputSigner.MuSig2RegisterNonces sessionID
                             pubNonces w)))
          = after (MockInputSigner.MuSig2RegisterNonces sessionID pubNonces w)).
Proof.
  split; [reflexivity|]. split; [reflexivity|]. split; [reflexivity|].
  intros H.
  specialize (H Samples.sessionID [Samples.pubNonce] Samples.musigSigner).
  apply (f_equal (fun w => length (mock.Calls (self w)))) in H.
  vm_compute in H. discriminate.
Qed.

(** C5, amended. MuSig2RegisterNonces keeps no session.  It returns exactly
    what the answering expectation is configured with, whichever nonces are
    passed: the configured boolean, [false] for a configured nil, and the
    configured error.  Its whole effect is that of its one dispatcher call:
    an answered call is logged and consumes its expectation, an unanswered
    one panics and changes nothing.  As long as the expectation that answers
    is unlimited or allows more than [n] calls, registering the same nonces
    after [n] registrations returns the same boolean and error as the first
    time. *)
Theorem MuSig2RegisterNonces_repeats_answer
    (sessionID : MuSig2SessionID) (pubNonces : list PubNonce) (w : World) :
  (forall b e,
     result (MockInputSigner.MuSig2RegisterNonces sessionID pubNonces w)
     = Some (b, e)
     <-> exists r v0 v1,
           reply w "MuSig2RegisterNonces"
             [VSessionID sessionID; VPubNonces pubNonces] = Some r
           /\ r !! 0%nat = Some v0 /\ r !! 1%nat = Some v1
           /\ asError v1 = Some e
           /\ ((v0 = VNil /\ b = false) \/ v0 = VBool b))
  /\ after (MockInputSigner.MuSig2RegisterNonces sessionID pubNonces w)
     = match matched w "MuSig2RegisterNonces"
               [VSessionID sessionID; VPubNonces pubNonces] with
       | Some (i, c) =>
           answered w "MuSig2RegisterNonces"
             [VSessionID sessionID; VPubNonces pubNonces] i c
       | None => w
       end
  /\ forall i c n,
       matched w "MuSig2RegisterNonces"
         [VSessionID sessionID; VPubNonces pubNonces] = Some (i, c) ->
       lasts c n ->
       result (MockInputSigner.MuSig2RegisterNonces sessionID pubNonces
                 (repeated (MockInputSigner.MuSig2RegisterNonces sessionID
                              pubNonces) n w))
       = result (MockInputSigner.MuSig2RegisterNonces sessionID pubNonces w).
Proof.
  split; [|split].
  - intros b e. unfold MockInputSigner.MuSig2RegisterNonces. split.
    + destruct (reply w "MuSig2RegisterNonces" _) as [r|] eqn:Hr.
      * answer Hr. decoders. intros H. exists r.
        destruct (r !! 0%nat) as [v0|] eqn:H0; [|discriminate H].
        configured H v0;
          (destruct (r !! 1%nat) as [v1|] eqn:H1; [|discriminate H]);
          configured H v1; injection H as <- <-; eauto 10.
      * destruct (Called_no_reply _ _ _ Hr) as [p Hp].
        unfold mbind, M_bind. by rewrite Hp.
    + intros (r & v0 & v1 & Hr & H0 & H1 & He & [[-> ->] | ->]);
        answer Hr; decoders; rewrite H0; simpl; rewrite H1;
        configured He v1; by simplify_eq.
  - unfold MockInputSigner.MuSig2RegisterNonces.
    rewrite after_Called_then by (intros r; auto 10 with frame).
    apply after_Called.
  - intros i c n Hm Hl. unfold MockInputSigner.MuSig2RegisterNonces.
    apply (result_repeated _ _ _ w i c n); auto 10 with frame.
Qed.

Lemma MuSig2RegisterNonces_repeats_answer_witness :
  lasts Samples.registerTwice 1
  /\ result (MockInputSigner.MuSig2RegisterNonces Samples.sessionID
               [Samples.pubNonce]
               (repeated (MockInputSigner.MuSig2RegisterNonces
                            Samples.sessionID [Samples.pubNonce]) 1
                  Samples.limitedSigner))
     = result (MockInputSigner.MuSig2RegisterNonces Samples.sessionID
                 [Samples.pubNonce] Samples.limitedSigner)
  /\ result (MockInputSigner.MuSig2RegisterNonces Samples.sessionID
               [Samples.pubNonce] Samples.limitedSigner) = Some (true, None).
Proof.
  assert (Hl : lasts Samples.registerTwice 1) by (right; vm_compute; reflexivity).
  split; [exact Hl|]. split; [|reflexivity].
  refine (proj2 (proj2 (MuSig2RegisterNonces_repeats_answer Samples.sessionID
                          [Samples.pubNonce] Samples.limitedSigner))
            0%nat Samples.registerTwice 1%nat _ Hl).
  reflexivity.
Defined.

(** The claim of C6 as written fails: a mock scripted with a one-time
    expectation answers two calls with the same session and the same message
    by two different partial signatures. *)
Lemma MuSig2Sign_scripted_differs :
  result (MockInputSigner.MuSig2Sign Samples.sessionID Samples.message true
            Samples.scriptedSigner) = Some (Some Samples.partialSigA, None)
  /\ result (MockInputSigner.MuSig2Sign Samples.sessionID Samples.message true
               (after (MockInputSigner.MuSig2Sign Samples.sessionID
                         Samples.message true Samples.scriptedSigner)))
     = Some (Some Samples.partialSigB, None)
  /\ ~ (forall sessionID msg withSortedKeys w r1 r2,
          result (MockInputSigner.MuSig2Sign sessionID msg withSortedKeys w)
          = Some r1 ->
          result (MockInputSigner.MuSig2Sign sessionID msg withSortedKeys
                    (after (MockInputSigner.MuSig2Sign sessionID msg
                              withSortedKeys w))) = Some r2 ->
          r1 = r2).
Proof.
  split; [reflexivity|]. split; [reflexivity|].
  intros H.
  specialize (H Samples.sessionID Samples.message true Samples.scriptedSigner
                _ _ eq_refl eq_refl).
  discriminate.
Qed.

(** C6, amended. Within the call limit of the expectation that answers it,
    MuSig2Sign is deterministic: after [n] calls with the same session,
    message and flag, one more such call returns the same partial signature
    and error as the first, provided the expectation is unlimited or allows
    more than [n] calls. *)
Theorem MuSig2Sign_repeats_answer
    (sessionID : MuSig2SessionID) (msg : list byte) (withSortedKeys : bool)
    (w : World) (i : nat) (c : mock.Call) (n : nat) :
  matched w "MuSig2Sign"
    [VSessionID sessionID; VHash32 msg; VBool withSortedKeys] = Some (i, c) ->
  lasts c n ->
  result (MockInputSigner.MuSig2Sign sessionID msg withSortedKeys
            (repeated (MockInputSigner.MuSig2Sign sessionID msg withSortedKeys)
               n w))
  = result (MockInputSigner.MuSig2Sign sessionID msg withSortedKeys w).
Proof.
  intros Hm Hl. unfold MockInputSigner.MuSig2Sign.
  apply (result_repeated _ _ _ w i c n); auto 10 with frame.
Qed.

Lemma MuSig2Sign_repeats_answer_witness :
  lasts Samples.signExpectation 3
  /\ result (MockInputSigner.MuSig2Sign Samples.sessionID Samples.message true
               (repeated (MockInputSigner.MuSig2Sign Samples.sessionID
                            Samples.message true) 3 Samples.musigSigner))
     = result (MockInputSigner.MuSig2Sign Samples.sessionID Samples.message
                 true Samples.musigSigner).
Proof.
  assert (Hl : lasts Samples.signExpectation 3) by (left; reflexivity).
  split; [exact Hl|].
  refine (MuSig2Sign_repeats_answer Samples.sessionID Samples.message true
            Samples.musigSigner 2 Samples.signExpectation 3 _ Hl).
  reflexivity.
Defined.

(** ** MockWitnessType *)

(** C10. WitnessGenerator does not depend on its arguments: for any two
    pairs of signer and descriptor the call has the same outcome in the same
    world, and what it logs, if it logs anything, is a call without
    arguments. *)
Theorem WitnessGenerator_ignores_arguments
    (signer1 signer2 : option Signer)
    (descriptor1 descriptor2 : option SignDescriptor) (w : World) :
  MockWitnessType.WitnessGenerator signer1 descriptor1 w
  = MockWitnessType.WitnessGenerator signer2 descriptor2 w
  /\ (mock.Calls (self (after (MockWitnessType.WitnessGenerator signer1
                                 descriptor1 w)))
      = mock.Calls (self w)
      \/ mock.Calls (self (after (MockWitnessType.WitnessGenerator signer1
                                    descriptor1 w)))
         = mock.Calls (self w) ++ [("WitnessGenerator"%string, [])]).
Proof.
  split; [reflexivity|].
  unfold MockWitnessType.WitnessGenerator.
  rewrite after_Called_then by (intros r; auto 10 with frame).
  rewrite after_Called.
  destruct (matched w "WitnessGenerator" []) as [[i c]|]; simpl; auto.
Qed.

(** The claim of C1 as written fails: a mock witness type that declares a
    size of 0 hands out a generator whose witness takes 74 bytes. *)
Lemma SizeUpperBound_below_witness_size :
  result (MockWitnessType.SizeUpperBound (Samples.witnessTypeDeclaring 0))
  = Some (0, false, None)
  /\ result (MockWitnessType.WitnessGenerator Samples.signer Samples.descriptor
               (Samples.witnessTypeDeclaring 0))
     = Some (Some Samples.signatureWitness)
  /\ wire.SerializeSize [Samples.signature] = 74
  /\ ~ (forall w signer descriptor n b e g,
          result (MockWitnessType.SizeUpperBound w) = Some (n, b, e) ->
          result (MockWitnessType.WitnessGenerator signer descriptor w) = Some g ->
          bounds n g).
Proof.
  split; [reflexivity|]. split; [reflexivity|]. split; [reflexivity|].
  intros H.
  specialize (H (Samples.witnessTypeDeclaring 0) Samples.signer
                Samples.descriptor 0 false None (Some Samples.signatureWitness)
                eq_refl eq_refl Samples.signatureWitness eq_refl
                Samples.transactions Samples.txn None 0
                (mkScript [Samples.signature] []) None eq_refl).
  vm_compute in H. by apply H.
Qed.

(** C1, amended. SizeUpperBound returns exactly what its own expectation is
    configured with, a size, a flag and an error, and WitnessGenerator
    exactly the generator its own expectation is configured with.  Neither
    looks at the other's expectation: the size returned is an upper bound on
    the witnesses of the generator returned only if the test configures the
    two that way. *)
Theorem SizeUpperBound_relays_configured_bound
    (w : World) (signer : option Signer) (descriptor : option SignDescriptor) :
  (forall n b e,
     result (MockWitnessType.SizeUpperBound w) = Some (n, b, e)
     <-> exists r v2,
           reply w "SizeUpperBound" [] = Some r
           /\ r !! 0%nat = Some (VWeightUnit n)
           /\ r !! 1%nat = Some (VBool b)
           /\ r !! 2%nat = Some v2 /\ asError v2 = Some e)
  /\ (forall g,
        result (MockWitnessType.WitnessGenerator signer descriptor w) = Some g
        <-> exists r,
              reply w "WitnessGenerator" [] = Some r
              /\ r !! 0%nat = Some (VWitnessGenerator g)).
Proof.
  split.
  - intros n b e. unfold MockWitnessType.SizeUpperBound. split.
    + destruct (reply w "SizeUpperBound" []) as [r|] eqn:Hr.
      * answer Hr. decoders. intros H. exists r.
        destruct (r !! 0%nat) as [v0|] eqn:H0; [|discriminate H].
        configured H v0.
        destruct (r !! 1%nat) as [v1|] eqn:H1; [|discriminate H].
        configured H v1.
        destruct (r !! 2%nat) as [v2|] eqn:H2; [|discriminate H].
        exists v2. configured H v2; injection H as <- <- <-; eauto 10.
      * destruct (Called_no_reply _ _ _ Hr) as [p Hp].
        unfold mbind, M_bind. by rewrite Hp.
    + intros (r & v2 & Hr & H0 & H1 & H2 & He).
      answer Hr. decoders. rewrite H0, H1, H2. simpl.
      configured He v2; by simplify_eq.
  - intros g. unfold MockWitnessType.WitnessGenerator. split.
    + destruct (reply w "WitnessGenerator" []) as [r|] eqn:Hr.
      * answer Hr. decoders. intros H. exists r. split; [done|].
        destruct (r !! 0%nat) as [v0|] eqn:H0; [|discriminate H].
        configured H v0. by injection H as <-.
      * destruct (Called_no_reply _ _ _ Hr) as [p Hp].
        unfold mbind, M_bind. by rewrite Hp.
    + intros (r & Hr & H0). answer Hr. decoders. by rewrite H0.
Qed.

Lemma SizeUpperBound_relays_configured_bound_witness :
  bounds 74 (Some Samples.signatureWitness)
  /\ result (MockWitnessType.SizeUpperBound (Samples.witnessTypeDeclaring 74))
     = Some (74, false, None)
  /\ result (MockWitnessType.WitnessGenerator Samples.signer Samples.descriptor
               (Samples.witnessTypeDeclaring 74))
     = Some (Some Samples.signatureWitness).
Proof.
  split.
  - intros gen [= <-] h tx hc inputIndex s err [= <- <-]. vm_compute. discriminate.
  - pose proof (SizeUpperBound_relays_configured_bound
                  (Samples.witnessTypeDeclaring 74) Samples.signer
                  Samples.descriptor) as [Hs Hw].
    split.
    + apply Hs. exists [VWeightUnit 74; VBool false; VNil], VNil.
      by repeat split.
    + apply Hw. exists [VWitnessGenerator (Some Samples.signatureWitness)].
      by split.
Defined.

(** ** The remaining methods: what they return *)

(** A call that no expectation answers. *)
Ltac unanswered H :=
  let p := fresh "p" in
  let Hp := fresh "Hp" in
  destruct (Called_no_reply _ _ _ H) as [p Hp];
  unfold mbind, M_bind; rewrite Hp; clear Hp.

(** X1. OutPoint has no nil guard: it returns an outpoint exactly when the
    first configured value is a wire.OutPoint, and panics on anything else,
    nil included. *)
Theorem OutPoint_returns_configured (w : World) (op : wire.OutPoint) :
  result (MockInput.OutPoint w) = Some op
  <-> exists r, reply w "OutPoint" [] = Some r
                /\ r !! 0%nat = Some (VOutPoint op).
Proof.
  unfold MockInput.OutPoint. split.
  - destruct (reply w "OutPoint" []) as [r|] eqn:Hr.
    + answer Hr. decoders. intros H. exists r. split; [done|].
      destruct (r !! 0%nat) as [v0|] eqn:H0; [|discriminate H].
      configured H v0. by injection H as <-.
    + by unanswered Hr.
  - intros (r & Hr & H0). answer Hr. decoders. by rewrite H0.
Qed.

(** X2. RequiredLockTime returns the pair (locktime, flag) exactly when the
    first configured value is a uint32 and the second a bool; with any other
    configuration, an untyped integer constant for instance, it panics. *)
Theorem RequiredLockTime_returns_configured (w : World) (n : Z) (b : bool) :
  result (MockInput.RequiredLockTime w) = Some (n, b)
  <-> exists r, reply w "RequiredLockTime" [] = Some r
                /\ r !! 0%nat = Some (VUint32 n)
                /\ r !! 1%nat = Some (VBool b).
Proof.
  unfold MockInput.RequiredLockTime. split.
  - destruct (reply w "RequiredLockTime" []) as [r|] eqn:Hr.
    + answer Hr. decoders. intros H. exists r. split; [done|].
      destruct (r !! 0%nat) as [v0|] eqn:H0; [|discriminate H].
      configured H v0.
      destruct (r !! 1%nat) as [v1|] eqn:H1; [|discriminate H].
      configured H v1. by injection H as <- <-.
    + by unanswered Hr.
  - intros (r & Hr & H0 & H1). answer Hr. decoders. by rewrite H0, H1.
Qed.

(** X3. BlocksToMaturity and HeightHint return a number exactly when the
    first configured value is a uint32; a nil or an int makes them panic. *)
Theorem maturity_and_height_return_configured (w : World) (n : Z) :
  (result (MockInput.BlocksToMaturity w) = Some n
   <-> exists r, reply w "BlocksToMaturity" [] = Some r
                 /\ r !! 0%nat = Some (VUint32 n))
  /\ (result (MockInput.HeightHint w) = Some n
      <-> exists r, reply w "HeightHint" [] = Some r
                    /\ r !! 0%nat = Some (VUint32 n)).
Proof.
  split.
  - unfold MockInput.BlocksToMaturity. split.
    + destruct (reply w "BlocksToMaturity" []) as [r|] eqn:Hr.
      * answer Hr. decoders. intros H. exists r. split; [done|].
        destruct (r !! 0%nat) as [v0|] eqn:H0; [|discriminate H].
        configured H v0. by injection H as <-.
      * by unanswered Hr.
    + intros (r & Hr & H0). answer Hr. decoders. by rewrite H0.
  - unfold MockInput.HeightHint. split.
    + destruct (reply w "HeightHint" []) as [r|] eqn:Hr.
      * answer Hr. decoders. intros H. exists r. split; [done|].
        destruct (r !! 0%nat) as [v0|] eqn:H0; [|discriminate H].
        configured H v0. by injection H as <-.
      * by unanswered Hr.
    + intros (r & Hr & H0). answer Hr. decoders. by rewrite H0.
Qed.

(** X4. String returns a name exactly when the first configured value is a
    string. *)
Theorem String_returns_configured (w : World) (s : string) :
  result (MockWitnessType.String w) = Some s
  <-> exists r, reply w "String" [] = Some r /\ r !! 0%nat = Some (VString s).
Proof.
  unfold MockWitnessType.String. split.
  - destruct (reply w "String" []) as [r|] eqn:Hr.
    + answer Hr. decoders. intros H. exists r. split; [done|].
      destruct (r !! 0%nat) as [v0|] eqn:H0; [|discriminate H].
      configured H v0. by injection H as <-.
    + by unanswered Hr.
  - intros (r & Hr & H0). answer Hr. decoders. by rewrite H0.
Qed.

(** X5. AddWeightEstimation never looks at the estimator it is given: its
    outcome is the same for any two estimators, and it returns error [e]
    exactly when the first configured value reads as [e], nil being the nil
    error. *)
Theorem AddWeightEstimation_ignores_estimator
    (e1 e2 : option loc) (w : World) (e : option error) :
  MockWitnessType.AddWeightEstimation e1 w
  = MockWitnessType.AddWeightEstimation e2 w
  /\ (result (MockWitnessType.AddWeightEstimation e1 w) = Some e
      <-> exists r v0, reply w "AddWeightEstimation" [] = Some r
                       /\ r !! 0%nat = Some v0 /\ asError v0 = Some e).
Proof.
  split; [reflexivity|].
  unfold MockWitnessType.AddWeightEstimation. split.
  - destruct (reply w "AddWeightEstimation" []) as [r|] eqn:Hr.
    + answer Hr. decoders. intros H. exists r.
      destruct (r !! 0%nat) as [v0|] eqn:H0; [|discriminate H].
      exists v0. configured H v0; by injection H as <-.
    + by unanswered Hr.
  - intros (r & v0 & Hr & H0 & He). answer Hr. decoders. rewrite H0.
    configured He v0; by simplify_eq.
Qed.

(** X6. ComputeInputScript returns exactly the configured pair: script [s]
    and error [e] are returned if and only if the first configured value
    reads as [s] (the nil interface and a nil Script pointer both give a nil
    Script) and the second as [e].  A nil script with a nil error and a
    script with an error are both possible. *)
Theorem ComputeInputScript_returns_configured
    (tx : option loc) (signDesc : option SignDescriptor) (w : World)
    (s : option Script) (e : option error) :
  result (MockInputSigner.ComputeInputScript tx signDesc w) = Some (s, e)
  <-> exists r v0 v1,
        reply w "ComputeInputScript" [VMsgTxPtr tx; VSignDescPtr signDesc]
        = Some r
        /\ r !! 0%nat = Some v0 /\ r !! 1%nat = Some v1
        /\ asScriptPtr v0 = Some s /\ asError v1 = Some e.
Proof.
  unfold MockInputSigner.ComputeInputScript. split.
  - destruct (reply w "ComputeInputScript" _) as [r|] eqn:Hr.
    + answer Hr. decoders. intros H. exists r.
      destruct (r !! 0%nat) as [v0|] eqn:H0; [|discriminate H].
      configured H v0;
        (destruct (r !! 1%nat) as [v1|] eqn:H1; [|discriminate H]);
        configured H v1; injection H as <- <-; eauto 10.
    + by unanswered Hr.
  - intros (r & v0 & v1 & Hr & H0 & H1 & Hs & He).
    answer Hr. decoders. rewrite H0.
    configured Hs v0; rewrite H1; configured He v1; by simplify_eq.
Qed.

(** ** The remaining methods: what they change *)



(** One method after another of a different name. *)
Lemma undisturbed_by_other_method {A B} (m1 m2 : string)
    (a1 a2 : mock.Arguments) (k1 : mock.Arguments -> M A)
    (k2 : mock.Arguments -> M B) :
  (forall r, stateless (k1 r)) -> (forall r, stateless (k2 r)) ->
  m1 <> m2 ->
  undisturbed_by (Called m2 a2 ≫= k2) (Called m1 a1 ≫= k1).
Proof.
  intros Hk1 Hk2 Hne w. rewrite after_Called_then by done.
  apply Called_then_result; [done|]. by apply reply_after_Called_other.
Qed.

Ltac undisturbed :=
  intros;
  apply undisturbed_by_other_method;
    [intros ?; auto 10 with frame | intros ?; auto 10 with frame | discriminate].

(** X8. The getters of MockInput can be asked in any order: what OutPoint,
    RequiredLockTime, BlocksToMaturity or HeightHint returns is not changed
    by a call of another of them, nor by crafting an input script. *)
Theorem getters_undisturbed :
  (undisturbed_by MockInput.OutPoint MockInput.RequiredLockTime
   /\ undisturbed_by MockInput.OutPoint MockInput.BlocksToMaturity
   /\ undisturbed_by MockInput.OutPoint MockInput.HeightHint)
  /\ (undisturbed_by MockInput.RequiredLockTime MockInput.OutPoint
      /\ undisturbed_by MockInput.RequiredLockTime MockInput.BlocksToMaturity
      /\ undisturbed_by MockInput.RequiredLockTime MockInput.HeightHint)
  /\ (undisturbed_by MockInput.BlocksToMaturity MockInput.OutPoint
      /\ undisturbed_by MockInput.BlocksToMaturity MockInput.RequiredLockTime
      /\ undisturbed_by MockInput.BlocksToMaturity MockInput.HeightHint)
  /\ (undisturbed_by MockInput.HeightHint MockInput.OutPoint
      /\ undisturbed_by MockInput.HeightHint MockInput.RequiredLockTime
      /\ undisturbed_by MockInput.HeightHint MockInput.BlocksToMaturity)
  /\ (forall signer txn hashCache prevOutputFetcher txinIdx,
        undisturbed_by MockInput.OutPoint
          (MockInput.CraftInputScript signer txn hashCache prevOutputFetcher
             txinIdx)
        /\ undisturbed_by MockInput.RequiredLockTime
             (MockInput.CraftInputScript signer txn hashCache prevOutputFetcher
                txinIdx)
        /\ undisturbed_by MockInput.BlocksToMaturity
             (MockInput.CraftInputScript signer txn hashCache prevOutputFetcher
                txinIdx)
        /\ undisturbed_by MockInput.HeightHint
             (MockInput.CraftInputScript signer txn hashCache prevOutputFetcher
                txinIdx)).
Proof.
  repeat split; undisturbed.
Qed.


(** X10. On MockWitnessType, asking for the name or adding the weight
    estimation changes neither the declared size nor the generator handed
    out, and the declared size changes neither of the former. *)
Theorem witness_type_methods_undisturbed
    (e : option loc) (signer : option Signer)
    (descriptor : option SignDescriptor) :
  undisturbed_by MockWitnessType.SizeUpperBound MockWitnessType.String
  /\ undisturbed_by MockWitnessType.SizeUpperBound
       (MockWitnessType.AddWeightEstimation e)
  /\ undisturbed_by (MockWitnessType.WitnessGenerator signer descriptor)
       MockWitnessType.String
  /\ undisturbed_by (MockWitnessType.WitnessGenerator signer descriptor)
       (MockWitnessType.AddWeightEstimation e)
  /\ undisturbed_by MockWitnessType.String MockWitnessType.SizeUpperBound
  /\ undisturbed_by (MockWitnessType.AddWeightEstimation e)
       MockWitnessType.SizeUpperBound
  /\ undisturbed_by MockWitnessType.String
       (MockWitnessType.AddWeightEstimation e)
  /\ undisturbed_by (MockWitnessType.AddWeightEstimation e)
       MockWitnessType.String.
Proof.
  repeat split; undisturbed.
Qed.

(** ** The remaining methods: repeated calls *)



(** X12. The same holds for the getters of MockInput: within the call limit
    of the answering expectation, BlocksToMaturity, HeightHint, OutPoint and
    RequiredLockTime return after [n] calls what they returned at first. *)
Theorem getters_repeat_answer (w : World) (i : nat) (c : mock.Call) (n : nat) :
  lasts c n ->
  (matched w "BlocksToMaturity" [] = Some (i, c) ->
   result (MockInput.BlocksToMaturity
             (repeated MockInput.BlocksToMaturity n w))
   = result (MockInput.BlocksToMaturity w))
  /\ (matched w "HeightHint" [] = Some (i, c) ->
      result (MockInput.HeightHint (repeated MockInput.HeightHint n w))
      = result (MockInput.HeightHint w))
  /\ (matched w "OutPoint" [] = Some (i, c) ->
      result (MockInput.OutPoint (repeated MockInput.OutPoint n w))
      = result (MockInput.OutPoint w))
  /\ (matched w "RequiredLockTime" [] = Some (i, c) ->
      result (MockInput.RequiredLockTime
                (repeated MockInput.RequiredLockTime n w))
      = result (MockInput.RequiredLockTime w)).
Proof.
  intros Hl. repeat split; intros Hm.
  - unfold MockInput.BlocksToMaturity.
    apply (result_repeated _ _ _ w i c n); auto 10 with frame.
  - unfold MockInput.HeightHint.
    apply (result_repeated _ _ _ w i c n); auto 10 with frame.
  - unfold MockInput.OutPoint.
    apply (result_repeated _ _ _ w i c n); auto 10 with frame.
  - unfold MockInput.RequiredLockTime.
    apply (result_repeated _ _ _ w i c n); auto 10 with frame.
Qed.

Lemma getters_repeat_answer_witness :
  lasts Fixtures.heightExpectation 4
  /\ result (MockInput.HeightHint (repeated MockInput.HeightHint 4 Fixtures.input))
     = result (MockInput.HeightHint Fixtures.input)
  /\ result (MockInput.HeightHint Fixtures.input) = Some 800000.
Proof.
  assert (Hl : lasts Fixtures.heightExpectation 4) by (right; vm_compute; reflexivity).
  split; [exact Hl|]. split; [|reflexivity].
  refine (proj1 (proj2 (getters_repeat_answer Fixtures.input 3
                          Fixtures.heightExpectation 4 Hl)) _).
  reflexivity.
Defined.





(** ** The remaining methods: a panic after the call *)

(** A wrongly typed return value in practice: the call panics, and is in the
    log all the same. *)
Lemma ill_typed_answer_is_logged :
  result (MockInput.BlocksToMaturity Fixtures.intInput) = None
  /\ mock.Calls (self (after (MockInput.BlocksToMaturity Fixtures.intInput)))
     = [("BlocksToMaturity"%string, [])]
  /\ result (MockInputSigner.ComputeInputScript Samples.txn Samples.descriptor
               Fixtures.illTypedSigner) = None
  /\ mock.Calls (self (after (MockInputSigner.ComputeInputScript Samples.txn
                                Samples.descriptor Fixtures.illTypedSigner)))
     = [("ComputeInputScript"%string,
         [VMsgTxPtr Samples.txn; VSignDescPtr Samples.descriptor])].
Proof. repeat split. Qed.
